(** * PointContrast pair loader: a shallow embedding of
      [pretrain/pointcontrast/lib/ddp_data_loaders.py]

    The file follows the Python module top to bottom:
    [get_matching_indices], [default_collate_pair_fn], [M],
    [sample_random_trans] and the class [ScanNetMatchPairDataset]
    ([__init__], [reset_seed], [apply_transform], [__len__], [__getitem__]).

    Conventions.
    - NumPy, SciPy, torch, MinkowskiEngine and open3d are libraries the module
      calls; they are gathered in the interface [Libs].  Every definition of
      the module is written over an arbitrary [Libs]; what a theorem needs to
      know about a library call is an explicit hypothesis ([NumpyLaws],
      [QuantizeLaws], [Open3dLaws]).  [Ref] is a fixed-point instance of the
      interface on which the definitions run on concrete inputs.
    - Python list objects that the module mutates (the per-sample list of
      correspondences) live in a store [gmap loc (list pyelem)]; a sample holds
      the location of its list, so aliasing and in-place extension are visible.
    - Exceptions are values of [exn]; effectful code is written in the
      state-and-exception monad [ST]. *)

From Stdlib Require Import ZArith QArith List String Ascii Permutation Lia Bool.
From stdpp Require Import base option list gmap strings.

#[local] Open Scope Z_scope.

(** ** Exceptions and the state-and-exception monad *)

Inductive exn : Type :=
| AttributeError
| NotImplementedError
| FileNotFoundError (path : string)
| KeyError
| IndexError
| ValueError
| LinAlgError
| RuntimeError
| SystemError.

Inductive result (A : Type) : Type :=
| Ok (a : A)
| Raise (e : exn).
Arguments Ok {A} a.
Arguments Raise {A} e.

Definition ST (S A : Type) : Type := S -> S * result A.

Definition ret {S A} (a : A) : ST S A := fun s => (s, Ok a).

Definition raise {S A} (e : exn) : ST S A := fun s => (s, Raise e).

Definition bind {S A B} (m : ST S A) (k : A -> ST S B) : ST S B :=
  fun s => match m s with
           | (s', Ok a) => k a s'
           | (s', Raise e) => (s', Raise e)
           end.

Definition get {S} : ST S S := fun s => (s, Ok s).

Definition put {S} (s : S) : ST S unit := fun _ => (s, Ok tt).

Definition lift_result {S A} (r : result A) : ST S A := fun s => (s, r).

Declare Scope st_scope.
Delimit Scope st_scope with st.
Notation "'let*' x := m 'in' k" := (bind m (fun x => k))
  (at level 10, x pattern, m at level 100, k at level 200) : st_scope.
#[local] Open Scope st_scope.

Definition is_ok {A} (r : result A) : bool :=
  match r with Ok _ => true | Raise _ => false end.

Definition map_result {A B} (f : A -> B) (r : result A) : result B :=
  match r with Ok a => Ok (f a) | Raise e => Raise e end.

(** ** Arrays *)

Definition vec3 (A : Type) : Type := (A * A * A)%type.
Definition vec4 (A : Type) : Type := (A * A * A * A)%type.
Definition mat3 (A : Type) : Type := vec3 (vec3 A).
Definition mat4 (A : Type) : Type := vec4 (vec4 A).

Definition map3 {A B} (f : A -> B) (v : vec3 A) : vec3 B :=
  let '(x, y, z) := v in (f x, f y, f z).

Definition zip3 {A B C} (f : A -> B -> C) (u : vec3 A) (v : vec3 B) : vec3 C :=
  let '(a, b, c) := u in let '(x, y, z) := v in (f a x, f b y, f c z).

Definition map4 {A B} (f : A -> B) (v : vec4 A) : vec4 B :=
  let '(x, y, z, w) := v in (f x, f y, f z, f w).

Definition rows4 {A} (m : mat4 A) : list (vec4 A) :=
  let '(r0, r1, r2, r3) := m in [r0; r1; r2; r3].

(** [a[sel]] with an integer index array: NumPy raises IndexError on an index
    past the end.  Indices are array positions ([nat]); the negative indices
    NumPy would wrap do not occur in an index array returned by a library. *)
Fixpoint np_take {A} (a : list A) (sel : list nat) : result (list A) :=
  match sel with
  | [] => Ok []
  | i :: sel' =>
      match a !! i with
      | None => Raise IndexError
      | Some x => map_result (cons x) (np_take a sel')
      end
  end.

(** ** The libraries behind the module *)

(** One field per library call of the module.  [F] is a float64, [F32] a
    float32; [PyRng] is the state of Python's [random] module and [NpRng] the
    state of a [numpy.random.RandomState]. *)
Class Libs : Type := {
  F : Type;
  F32 : Type;
  (* float literals and scalar arithmetic *)
  f_of_Z : Z -> F;
  c_0_95 : F;
  c_0_5 : F;
  c_pi : F;
  f_add : F -> F -> F;
  f_sub : F -> F -> F;
  f_mul : F -> F -> F;
  f_div : F -> F -> F;
  f_neg : F -> F;
  f_lt : F -> F -> bool;
  f_min : F -> F -> F;
  np_round : F -> F;
  (* torch dtype conversions: [.float()] and [.int()] *)
  f64_to_f32 : F -> F32;
  f64_to_i32 : F -> Z;
  i32_out_of_range : Z -> Z;
  (* [random.random()] *)
  PyRng : Type;
  py_random : PyRng -> F * PyRng;
  (* [RandomState.seed], [.rand] (one draw) and [.permutation] *)
  NpRng : Type;
  np_seed : Z -> NpRng;
  np_rand1 : NpRng -> F * NpRng;
  np_permutation : NpRng -> nat -> list nat * NpRng;
  (* [np.mean(pcd, axis=0)], [scipy.linalg.norm], [scipy.linalg.expm],
     [R.dot(v)], one row of [pts @ B], [A @ B] on 4x4 arrays, and
     [np.linalg.inv] ([None]: LinAlgError, the matrix is singular) *)
  np_mean : list (vec3 F) -> vec3 F;
  norm : vec3 F -> F;
  expm : mat3 F -> mat3 F;
  np_dot : mat3 F -> vec3 F -> vec3 F;
  np_row_matmul : vec3 F -> mat3 F -> vec3 F;
  np_matmul4 : mat4 F -> mat4 F -> mat4 F;
  np_linalg_inv : mat4 F -> option (mat4 F);
  (* [ME.utils.sparse_quantize(coords, return_index=True)]: the index array *)
  sparse_quantize : list (vec3 F) -> list nat;
  (* [PointCloud.transform], point by point, and
     [KDTreeFlann(target).search_radius_vector_3d(point, radius)]: its [idx] *)
  o3d_transform : mat4 F -> vec3 F -> vec3 F;
  search_radius_vector_3d : list (vec3 F) -> vec3 F -> F -> list nat
}.

(** ** Integers carried by float64 and int32 arrays *)

(** The correspondence indices are integers, but the module adds them to a
    float64 array ([curr_start_inds = np.zeros((1, 2))]) and casts the sum to
    int32 at the end.  A float64 whose value is an integer is carried as that
    integer: [f64_round] is IEEE-754 rounding to the nearest double, ties to
    even (53 significant bits), so [f64_of_int] is the int64-to-float64
    conversion and [f64_add] the float64 addition.  Infinities are out of
    reach of int64 operands and are not modelled. *)
Definition f64_round (z : Z) : Z :=
  let a := Z.abs z in
  let e := Z.log2 a - 52 in
  if e <=? 0 then z
  else
    let q := Z.shiftr a e in
    let r := Z.land a (Z.ones e) in
    let h := Z.shiftl 1 (e - 1) in
    let q' := if r <? h then q
              else if h <? r then q + 1
              else if Z.even q then q else q + 1 in
    Z.sgn z * Z.shiftl q' e.

Definition f64_of_int (z : Z) : Z := f64_round z.

Definition f64_add (a b : Z) : Z := f64_round (a + b).

Definition in_int32 (z : Z) : bool := (- 2 ^ 31 <=? z) && (z <? 2 ^ 31).

(** ** Python lists of correspondences *)

(** An element of a correspondence list: a tuple [(i, j)] appended by
    [get_matching_indices], or a bare integer (the collator extends an empty
    list with two of them). *)
Inductive pyelem : Type :=
| EInt (z : Z)
| EPair (i j : Z).

Abbreviation loc := nat.

(** [SystemError] is raised on a location that holds no object; a Python
    reference always points to one, so this is never seen on a store that
    allocates what the samples refer to. *)
Definition read_list (l : loc) : ST (gmap loc (list pyelem)) (list pyelem) :=
  fun h => match h !! l with
           | Some v => (h, Ok v)
           | None => (h, Raise SystemError)
           end.

(** [lst.extend(more)], in place. *)
Definition list_extend (l : loc) (more : list pyelem)
  : ST (gmap loc (list pyelem)) unit :=
  fun h => match h !! l with
           | Some v => (<[l := v ++ more]> h, Ok tt)
           | None => (h, Raise SystemError)
           end.

(** A new list object. *)
Definition new_list (v : list pyelem) : ST (gmap loc (list pyelem)) loc :=
  fun h => let l := fresh (dom h) in (<[l := v]> h, Ok l).

Fixpoint all_pairs (l : list pyelem) : option (list (Z * Z)) :=
  match l with
  | [] => Some []
  | EPair i j :: l' => option_map (cons (i, j)) (all_pairs l')
  | EInt _ :: _ => None
  end.

Fixpoint all_ints (l : list pyelem) : option (list Z) :=
  match l with
  | [] => Some []
  | EInt z :: l' => option_map (cons z) (all_ints l')
  | EPair _ _ :: _ => None
  end.

(** [np.array(lst) + curr_start_inds], with [curr_start_inds] of shape (1, 2)
    and dtype float64.  A list of n >= 1 tuples is an (n, 2) int64 array and
    the sum has n rows.  A list of bare integers is a 1-d array of shape (n,):
    it broadcasts against (1, 2) to one row when n is 2 or 1 and not at all
    otherwise (in particular not for the empty list).  A list that mixes
    tuples and integers is no rectangular array.  The result is float64. *)
Definition np_array_add (lst : list pyelem) (start : Z * Z)
  : result (list (Z * Z)) :=
  match lst with
  | [] => Raise ValueError
  | EPair _ _ :: _ =>
      match all_pairs lst with
      | Some ps =>
          Ok (map (fun p => (f64_add (f64_of_int (fst p)) (fst start),
                             f64_add (f64_of_int (snd p)) (snd start))) ps)
      | None => Raise ValueError
      end
  | EInt _ :: _ =>
      match all_ints lst with
      | Some [x] =>
          Ok [(f64_add (f64_of_int x) (fst start),
               f64_add (f64_of_int x) (snd start))]
      | Some [x; y] =>
          Ok [(f64_add (f64_of_int x) (fst start),
               f64_add (f64_of_int y) (snd start))]
      | _ => Raise ValueError
      end
  end.

(** [enumerate(lst)] and the slice [lst[:k]] (a negative [k] counts from the
    end; both ends are clamped). *)
Definition enumerate_from {A} (start : nat) (lst : list A) : list (nat * A) :=
  combine (seq start (length lst)) lst.

Definition enumerate {A} (lst : list A) : list (nat * A) :=
  enumerate_from 0 lst.

Definition py_slice_to {A} (lst : list A) (k : Z) : list A :=
  let n := Z.of_nat (length lst) in
  let stop := if k <? 0 then Z.max 0 (k + n) else Z.min k n in
  firstn (Z.to_nat stop) lst.

(** ** The module *)

Section Module_.
Context {L : Libs}.

(** A row of a loaded point array: three coordinates and whatever further
    columns the file stores (intensity, ...). *)
Record row : Type := { pos : vec3 F; extra : list F }.

Definition row_to_list (r : row) : list F :=
  let '(x, y, z) := pos r in x :: y :: z :: extra r.

Definition row_width (r : row) : nat := (3 + length (extra r))%nat.

Record PointCloud : Type := { points : list (vec3 F); colors : list (vec3 F) }.

Definition make_open3d_point_cloud (xyz : list (vec3 F))
    (color : option (list (vec3 F))) : PointCloud :=
  {| points := xyz; colors := match color with Some c => c | None => [] end |}.

(** *** [get_matching_indices] *)

(** The deep copies leave [source] and [target] alone; [match_inds] is the
    content of the list object that is returned. *)
Definition get_matching_indices (source target : PointCloud) (trans : mat4 F)
    (search_voxel_size : F) (K : option Z) : list (Z * Z) :=
  let source_copy := map (o3d_transform trans) (points source) in
  let pcd_tree := points target in
  fold_left
    (fun match_inds ip =>
       let idx := search_radius_vector_3d pcd_tree (snd ip) search_voxel_size in
       let idx := match K with Some k => py_slice_to idx k | None => idx end in
       fold_left
         (fun acc j => acc ++ [(Z.of_nat (fst ip), Z.of_nat j)])
         idx match_inds)
    (enumerate source_copy) [].

(** What one pass of the outer loop appends for the source point [snd ip] at
    position [fst ip]. *)
Definition pairs_of (tree : list (vec3 F)) (r : F) (K : option Z)
    (ip : nat * vec3 F) : list (Z * Z) :=
  let idx := search_radius_vector_3d tree (snd ip) r in
  let idx := match K with Some k => py_slice_to idx k | None => idx end in
  map (fun j => (Z.of_nat (fst ip), Z.of_nat j)) idx.

(** *** [default_collate_pair_fn] *)

(** One element of [list_data], the tuple returned by [__getitem__]:
    (xyz0, xyz1, coords0, coords1, feats0, feats1, matching_inds, trans).
    [s_matching_inds] is a reference to a list object. *)
Record sample : Type := {
  s_xyz0 : list (vec3 F);
  s_xyz1 : list (vec3 F);
  s_coords0 : list (vec3 F);
  s_coords1 : list (vec3 F);
  s_feats0 : list row;
  s_feats1 : list row;
  s_matching_inds : loc;
  s_trans : mat4 F
}.

(** The returned dictionary. *)
Record batch : Type := {
  pcd0 : list (vec3 F32);
  pcd1 : list (vec3 F32);
  sinput0_C : list (vec4 Z);
  sinput0_F : list (list F32);
  sinput1_C : list (vec4 Z);
  sinput1_F : list (list F32);
  correspondences : list (Z * Z);
  T_gt : list (vec4 F32);
  len_batch : list (Z * Z)
}.

(** The lists the loop appends to, and [curr_start_inds]. *)
Record collate_state : Type := {
  xyz_batch0 : list (list (vec3 F));
  coords_batch0 : list (list (vec4 Z));
  feats_batch0 : list (list row);
  xyz_batch1 : list (list (vec3 F));
  coords_batch1 : list (list (vec4 Z));
  feats_batch1 : list (list row);
  trans_batch : list (mat4 F);
  matching_inds_batch : list (list (Z * Z));
  len_batch_acc : list (Z * Z);
  curr_start_inds : Z * Z
}.

Definition collate_init : collate_state :=
  {| xyz_batch0 := []; coords_batch0 := []; feats_batch0 := [];
     xyz_batch1 := []; coords_batch1 := []; feats_batch1 := [];
     trans_batch := []; matching_inds_batch := []; len_batch_acc := [];
     curr_start_inds := (0, 0) |}.

(** [torch.cat((torch.ones(N, 1).int() * batch_id,
                torch.from_numpy(coords).int()), 1)].
    The tag is an int32; a batch has far fewer than 2^31 samples. *)
Definition tag_coords (batch_id : nat) (coords : list (vec3 F)) : list (vec4 Z) :=
  map (fun c => let '(x, y, z) := map3 f64_to_i32 c in (Z.of_nat batch_id, x, y, z))
      coords.

(** The body of [for batch_id, _ in enumerate(coords0)]. *)
Definition collate_iter (batch_id : nat) (s : sample) (st : collate_state)
  : ST (gmap loc (list pyelem)) collate_state :=
  let N0 := Z.of_nat (length (s_coords0 s)) in
  let N1 := Z.of_nat (length (s_coords1 s)) in
  let* inds := read_list (s_matching_inds s) in
  let* _ := (if (length inds =? 0)%nat
             then list_extend (s_matching_inds s) [EInt 0; EInt 0]
             else ret tt) in
  let* inds := read_list (s_matching_inds s) in
  let* rows := lift_result (np_array_add inds (curr_start_inds st)) in
  ret {| xyz_batch0 := xyz_batch0 st ++ [s_xyz0 s];
         coords_batch0 := coords_batch0 st ++ [tag_coords batch_id (s_coords0 s)];
         feats_batch0 := feats_batch0 st ++ [s_feats0 s];
         xyz_batch1 := xyz_batch1 st ++ [s_xyz1 s];
         coords_batch1 := coords_batch1 st ++ [tag_coords batch_id (s_coords1 s)];
         feats_batch1 := feats_batch1 st ++ [s_feats1 s];
         trans_batch := trans_batch st ++ [s_trans s];
         matching_inds_batch := matching_inds_batch st ++ [rows];
         len_batch_acc := len_batch_acc st ++ [(N0, N1)];
         curr_start_inds :=
           (f64_add (fst (curr_start_inds st)) (f64_of_int N0),
            f64_add (snd (curr_start_inds st)) (f64_of_int N1)) |}.

Fixpoint collate_loop (batch_id : nat) (list_data : list sample)
    (st : collate_state) : ST (gmap loc (list pyelem)) collate_state :=
  match list_data with
  | [] => ret st
  | s :: rest =>
      let* st' := collate_iter batch_id s st in
      collate_loop (S batch_id) rest st'
  end.

(** [torch.cat(ts, 0)] on 2-d tensors: the rows must have one width.  (A
    tensor without rows carries no width here.) *)
Definition torch_cat_rows (ts : list (list row)) : result (list row) :=
  match concat ts with
  | [] => Ok []
  | r :: rs =>
      if forallb (fun r' => (row_width r' =? row_width r)%nat) rs
      then Ok (r :: rs) else Raise RuntimeError
  end.

(** [.int()] on a float64 tensor of integers: the value when it is an int32;
    the C conversion leaves the rest undefined ([i32_out_of_range]). *)
Definition to_int32 (z : Z) : Z :=
  if in_int32 z then z else i32_out_of_range z.

(** The transposition [zip] of no sample is empty and cannot be unpacked into
    the eight names. *)
Definition default_collate_pair_fn (list_data : list sample)
  : ST (gmap loc (list pyelem)) batch :=
  match list_data with
  | [] => raise ValueError
  | _ :: _ =>
      let* st := collate_loop 0 list_data collate_init in
      let* f0 := lift_result (torch_cat_rows (feats_batch0 st)) in
      let* f1 := lift_result (torch_cat_rows (feats_batch1 st)) in
      ret {| pcd0 := map (map3 f64_to_f32) (concat (xyz_batch0 st));
             pcd1 := map (map3 f64_to_f32) (concat (xyz_batch1 st));
             sinput0_C := concat (coords_batch0 st);
             sinput0_F := map (fun r => map f64_to_f32 (row_to_list r)) f0;
             sinput1_C := concat (coords_batch1 st);
             sinput1_F := map (fun r => map f64_to_f32 (row_to_list r)) f1;
             correspondences :=
               map (fun p => (to_int32 (fst p), to_int32 (snd p)))
                   (concat (matching_inds_batch st));
             T_gt := map (map4 f64_to_f32) (concat (map rows4 (trans_batch st)));
             len_batch := len_batch_acc st |}
  end.

(** *** The vocabulary of the statements about the collator *)

(** The point counts of a sample, [N0] and [N1] in the loop, and their sums
    over a list of samples. *)
Definition count0 (s : sample) : Z := Z.of_nat (length (s_coords0 s)).
Definition count1 (s : sample) : Z := Z.of_nat (length (s_coords1 s)).

Definition total0 (samples : list sample) : Z :=
  fold_right (fun s a => count0 s + a) 0 samples.
Definition total1 (samples : list sample) : Z :=
  fold_right (fun s a => count1 s + a) 0 samples.

(** The raw (source_index, target_index) pairs of a sample: the content of
    its list, when that is a list of tuples. *)
Definition raw_pairs (h : gmap loc (list pyelem)) (s : sample)
  : option (list (Z * Z)) :=
  match h !! s_matching_inds s with
  | Some v => all_pairs v
  | None => None
  end.

Definition shifted (off : Z * Z) (ps : list (Z * Z)) : list (Z * Z) :=
  map (fun p => (fst p + fst off, snd p + snd off)) ps.

(** The rows expected of a sample at the offsets [off]: its pairs, shifted;
    the single row [off] when it has none. *)
Definition expected_rows (h : gmap loc (list pyelem)) (off : Z * Z) (s : sample)
  : list (Z * Z) :=
  match raw_pairs h s with
  | Some (p :: ps) => shifted off (p :: ps)
  | _ => [off]
  end.

(** The rows expected of the sample at position [k] of [samples]: the offsets
    are the point counts of the samples before it. *)
Definition sample_rows (h : gmap loc (list pyelem)) (samples : list sample)
    (k : nat) (s : sample) : list (Z * Z) :=
  expected_rows h (total0 (firstn k samples), total1 (firstn k samples)) s.

(** Every index of a pair is a position of its cloud. *)
Definition valid_pairs (s : sample) (ps : list (Z * Z)) : Prop :=
  Forall (fun p => 0 <= fst p < count0 s /\ 0 <= snd p < count1 s) ps.

(** The list of the sample exists and holds tuples of valid indices: what
    [get_matching_indices] builds. *)
Definition well_formed (h : gmap loc (list pyelem)) (s : sample) : Prop :=
  exists ps, raw_pairs h s = Some ps /\ valid_pairs s ps.

(** All feature rows of the batch have one width. *)
Definition same_width (ts : list (list row)) : Prop :=
  forall r r', In r (concat ts) -> In r' (concat ts) -> row_width r = row_width r'.

(** The store after the list at [l] went through "in case 0 matching", and
    after all the lists of [samples] did, in order. *)
Definition extend_empty (h : gmap loc (list pyelem)) (l : loc)
  : gmap loc (list pyelem) :=
  match h !! l with
  | Some [] => <[l := [EInt 0; EInt 0]]> h
  | _ => h
  end.

Definition heap_after (samples : list sample) (h : gmap loc (list pyelem))
  : gmap loc (list pyelem) :=
  fold_left (fun h s => extend_empty h (s_matching_inds s)) samples h.

(** Devices of the proofs about the loop: the state after one pass that
    computed [rows]; the state after the passes over [samples], when nothing
    is rounded; and how the store of a later pass relates to the first one. *)
Definition iter_state (batch_id : nat) (s : sample) (st : collate_state)
    (rows : list (Z * Z)) : collate_state :=
  {| xyz_batch0 := xyz_batch0 st ++ [s_xyz0 s];
     coords_batch0 := coords_batch0 st ++ [tag_coords batch_id (s_coords0 s)];
     feats_batch0 := feats_batch0 st ++ [s_feats0 s];
     xyz_batch1 := xyz_batch1 st ++ [s_xyz1 s];
     coords_batch1 := coords_batch1 st ++ [tag_coords batch_id (s_coords1 s)];
     feats_batch1 := feats_batch1 st ++ [s_feats1 s];
     trans_batch := trans_batch st ++ [s_trans s];
     matching_inds_batch := matching_inds_batch st ++ [rows];
     len_batch_acc := len_batch_acc st ++ [(count0 s, count1 s)];
     curr_start_inds :=
       (f64_add (fst (curr_start_inds st)) (f64_of_int (count0 s)),
        f64_add (snd (curr_start_inds st)) (f64_of_int (count1 s))) |}.

Definition spec_state (h0 : gmap loc (list pyelem)) (k : nat)
    (samples : list sample) (st : collate_state) : collate_state :=
  let c := curr_start_inds st in
  {| xyz_batch0 := xyz_batch0 st ++ map s_xyz0 samples;
     coords_batch0 :=
       coords_batch0 st ++
       imap (fun i s => tag_coords (k + i) (s_coords0 s)) samples;
     feats_batch0 := feats_batch0 st ++ map s_feats0 samples;
     xyz_batch1 := xyz_batch1 st ++ map s_xyz1 samples;
     coords_batch1 :=
       coords_batch1 st ++
       imap (fun i s => tag_coords (k + i) (s_coords1 s)) samples;
     feats_batch1 := feats_batch1 st ++ map s_feats1 samples;
     trans_batch := trans_batch st ++ map s_trans samples;
     matching_inds_batch :=
       matching_inds_batch st ++
       imap (fun i s => expected_rows h0
                          (fst c + total0 (firstn i samples),
                           snd c + total1 (firstn i samples)) s) samples;
     len_batch_acc :=
       len_batch_acc st ++ map (fun s => (count0 s, count1 s)) samples;
     curr_start_inds := (fst c + total0 samples, snd c + total1 samples) |}.

Definition heap_rel (h0 h : gmap loc (list pyelem)) : Prop :=
  forall l, h !! l = h0 !! l \/
            (h0 !! l = Some [] /\ h !! l = Some [EInt 0; EInt 0]).

(** *** [M] and [sample_random_trans] *)

Definition eye3 : mat3 F :=
  let o := f_of_Z 1 in let z := f_of_Z 0 in
  ((o, z, z), (z, o, z), (z, z, o)).

Definition np_identity4 : mat4 F :=
  let o := f_of_Z 1 in let z := f_of_Z 0 in
  ((o, z, z, z), (z, o, z, z), (z, z, o, z), (z, z, z, o)).

Definition np_cross (a b : vec3 F) : vec3 F :=
  let '(a0, a1, a2) := a in
  let '(b0, b1, b2) := b in
  (f_sub (f_mul a1 b2) (f_mul a2 b1),
   f_sub (f_mul a2 b0) (f_mul a0 b2),
   f_sub (f_mul a0 b1) (f_mul a1 b0)).

(** Rotation matrix along axis with angle theta:
    [expm(np.cross(np.eye(3), axis / norm(axis) * theta))]. *)
Definition M (axis : vec3 F) (theta : F) : mat3 F :=
  let v := map3 (fun x => f_mul (f_div x (norm axis)) theta) axis in
  expm (map3 (fun e => np_cross e v) eye3).

(** [randg.rand(3)]: three successive draws. *)
Definition rand3 (randg : NpRng) : vec3 F * NpRng :=
  let '(a, g) := np_rand1 randg in
  let '(b, g) := np_rand1 g in
  let '(c, g) := np_rand1 g in
  ((a, b, c), g).

(** [T = np.eye(4); T[:3, :3] = R; T[:3, 3] = t]. *)
Definition affine4 (R : mat3 F) (t : vec3 F) : mat4 F :=
  let '((a, b, c), (d, e, f), (g, h, i)) := R in
  let '(x, y, z) := t in
  let o := f_of_Z 1 in let n := f_of_Z 0 in
  ((a, b, c, x), (d, e, f, y), (g, h, i, z), (n, n, n, o)).

(** The arguments of [M] are evaluated left to right: [rand(3)], then
    [rand(1)]. *)
Definition sample_random_trans (pcd : list (vec3 F)) (randg : NpRng)
    (rotation_range : F) : mat4 F * NpRng :=
  let '(u, g) := rand3 randg in
  let '(t, g) := np_rand1 g in
  let R := M (map3 (fun x => f_sub x c_0_5) u)
             (f_mul (f_div (f_mul rotation_range c_pi) (f_of_Z 180))
                    (f_sub t c_0_5)) in
  (affine4 R (np_dot R (map3 f_neg (np_mean pcd))), g).

(** *** The world around a dataset object *)

Inductive file : Type :=
| TextFile (lines : list string)
| NpzFile (pcd : option (list row)).

(** [heap]: the list objects; [disk]: the files; [opened]: every path handed
    to [open] or [np.load] so far, latest first; [py_rng]: the generator of
    the [random] module; [np_rng]: the global generator of [np.random];
    [randg]: the dataset's own [self.randg]; [os_entropy]: the state a
    [RandomState()] built without a seed starts from. *)
Record World : Type := {
  heap : gmap loc (list pyelem);
  disk : gmap string file;
  opened : list string;
  py_rng : PyRng;
  np_rng : NpRng;
  randg : NpRng;
  os_entropy : NpRng
}.

Definition set_heap (h : gmap loc (list pyelem)) (w : World) : World :=
  {| heap := h; disk := disk w; opened := opened w; py_rng := py_rng w;
     np_rng := np_rng w; randg := randg w; os_entropy := os_entropy w |}.

Definition set_opened (o : list string) (w : World) : World :=
  {| heap := heap w; disk := disk w; opened := o; py_rng := py_rng w;
     np_rng := np_rng w; randg := randg w; os_entropy := os_entropy w |}.

Definition set_py_rng (g : PyRng) (w : World) : World :=
  {| heap := heap w; disk := disk w; opened := opened w; py_rng := g;
     np_rng := np_rng w; randg := randg w; os_entropy := os_entropy w |}.

Definition set_np_rng (g : NpRng) (w : World) : World :=
  {| heap := heap w; disk := disk w; opened := opened w; py_rng := py_rng w;
     np_rng := g; randg := randg w; os_entropy := os_entropy w |}.

Definition set_randg (g : NpRng) (w : World) : World :=
  {| heap := heap w; disk := disk w; opened := opened w; py_rng := py_rng w;
     np_rng := np_rng w; randg := g; os_entropy := os_entropy w |}.

Definition on_heap {A} (m : ST (gmap loc (list pyelem)) A) : ST World A :=
  fun w => let '(h, r) := m (heap w) in (set_heap h w, r).

(** [random.random()] *)
Definition random_random : ST World F :=
  fun w => let '(x, g) := py_random (py_rng w) in (set_py_rng g w, Ok x).

(** [np.random.seed(seed)] *)
Definition np_random_seed (seed : Z) : ST World unit :=
  fun w => (set_np_rng (np_seed seed) w, Ok tt).

(** [np.random.choice(a, size, replace=False)]:
    [a[permutation(len(a))[:size]]], and ValueError when [size] is negative
    or larger than the population. *)
Definition np_random_choice (a : list nat) (size : Z) : ST World (list nat) :=
  if (size <? 0) || (Z.of_nat (length a) <? size) then raise ValueError
  else
    let* perm := (fun w => let '(p, g) := np_permutation (np_rng w) (length a)
                           in (set_np_rng g w, Ok p)) in
    lift_result (np_take a (firstn (Z.to_nat size) perm)).

(** A call on [self.randg]. *)
Definition with_randg {A} (f : NpRng -> A * NpRng) : ST World A :=
  fun w => let '(a, g) := f (randg w) in (set_randg g w, Ok a).

(** [open(path).readlines()].  Decoding a binary file as text fails with
    UnicodeDecodeError, a ValueError. *)
Definition open_readlines (path : string) : ST World (list string) :=
  fun w =>
    match disk w !! path with
    | None => (w, Raise (FileNotFoundError path))
    | Some (TextFile lines) => (set_opened (path :: opened w) w, Ok lines)
    | Some (NpzFile _) => (set_opened (path :: opened w) w, Raise ValueError)
    end.

(** [np.load(path)] of an archive; a text file is no archive. *)
Definition np_load (path : string) : ST World (option (list row)) :=
  fun w =>
    match disk w !! path with
    | None => (w, Raise (FileNotFoundError path))
    | Some (NpzFile pcd) => (set_opened (path :: opened w) w, Ok pcd)
    | Some (TextFile _) => (set_opened (path :: opened w) w, Raise ValueError)
    end.

(** [data["pcd"]] *)
Definition npz_pcd (data : option (list row)) : result (list row) :=
  match data with Some a => Ok a | None => Raise KeyError end.

(** *** Paths, lines and indexing *)

Definition starts_with_slash (s : string) : bool :=
  match s with
  | String c _ => Ascii.eqb c "/"%char
  | EmptyString => false
  end.

Fixpoint ends_with_slash (s : string) : bool :=
  match s with
  | EmptyString => false
  | String c EmptyString => Ascii.eqb c "/"%char
  | String _ s' => ends_with_slash s'
  end.

(** [os.path.join(a, b)] (posixpath). *)
Definition os_path_join (a b : string) : string :=
  if starts_with_slash b then b
  else if String.eqb a EmptyString || ends_with_slash a then String.append a b
  else String.append a (String "/"%char b).

(** The ASCII characters [str.isspace] accepts. *)
Definition is_space (c : ascii) : bool :=
  let n := nat_of_ascii c in
  ((9 <=? n)%nat && (n <=? 13)%nat) || ((28 <=? n)%nat && (n <=? 32)%nat).

(** [x.strip().split()]: the maximal runs of non-blank characters. *)
Fixpoint split_from (s : string) (cur : option string) : list string :=
  match s with
  | EmptyString => match cur with Some w => [w] | None => [] end
  | String c s' =>
      if is_space c then
        match cur with
        | Some w => w :: split_from s' None
        | None => split_from s' None
        end
      else
        split_from s' (Some (String.append (default EmptyString cur)
                                           (String c EmptyString)))
  end.

Definition py_split (x : string) : list string := split_from x None.

(** [lst[i]]: a negative index counts from the end. *)
Definition py_index {A} (lst : list A) (i : Z) : result A :=
  let n := Z.of_nat (length lst) in
  let i' := if i <? 0 then i + n else i in
  if (i' <? 0) || (n <=? i') then Raise IndexError
  else match lst !! Z.to_nat i' with
       | Some x => Ok x
       | None => Raise IndexError
       end.

(** *** [ScanNetMatchPairDataset] *)

(** [self.transform(coords, feats)]: an object of [lib.transforms] (in the
    data loader, [Compose([Jitter()])]).  It is given the two arrays and draws
    from the generators of [random] and [np.random]. *)
Definition Transform : Type :=
  list (vec3 F) -> list (vec3 F) -> PyRng * NpRng ->
  (list (vec3 F) * list (vec3 F)) * (PyRng * NpRng).

(** The fields of [config] the class reads. *)
Record Config : Type := {
  data_voxel_size : F;
  trainer_positive_pair_search_voxel_size_multiplier : F;
  trainer_min_scale : F;
  trainer_max_scale : F;
  trainer_rotation_range : F;
  data_scannet_match_dir : string;
  data_dataset_root_dir : string
}.

(** The attributes of the object; [self.data_objects] stays empty and
    [self.randg] is the field [randg] of the world. *)
Record Dataset : Type := {
  self_phase : string;
  self_files : list (string * string);
  self_transform : option Transform;
  self_voxel_size : F;
  self_matching_search_voxel_size : F;
  self_random_scale : bool;
  self_min_scale : F;
  self_max_scale : F;
  self_random_rotation : bool;
  self_rotation_range : F;
  self_root_filelist : string;
  self_root : string
}.

(** [reset_seed(seed=0)]: [self.randg.seed(seed)]. *)
Definition reset_seed (seed : Z) : ST World unit :=
  fun w => (set_randg (np_seed seed) w, Ok tt).

(** [self.files.append([fname[0], fname[1]])] for each [fname]. *)
Fixpoint read_fnames (fnames : list (list string))
  : result (list (string * string)) :=
  match fnames with
  | [] => Ok []
  | (a :: b :: _) :: rest => map_result (cons (a, b)) (read_fnames rest)
  | _ :: _ => Raise IndexError
  end.

(** [__init__(phase, transform, random_rotation, random_scale, manual_seed,
    config)].  [config] defaults to [None], whose attributes do not exist. *)
Definition init (phase : string) (transform : option Transform)
    (random_rotation random_scale manual_seed : bool) (config : option Config)
  : ST World Dataset :=
  match config with
  | None => raise AttributeError
  | Some config =>
      let voxel_size := data_voxel_size config in
      let matching_search_voxel_size :=
        f_mul (data_voxel_size config)
              (trainer_positive_pair_search_voxel_size_multiplier config) in
      let* _ := (fun w => (set_randg (os_entropy w) w, Ok tt)) in
      let* _ := (if manual_seed then reset_seed 0 else ret tt) in
      let root_filelist := data_scannet_match_dir config in
      let root := data_dataset_root_dir config in
      if String.eqb phase "train" then
        let fname_txt := os_path_join root root_filelist in
        let* content := open_readlines fname_txt in
        let fnames := map py_split content in
        let* files := lift_result (read_fnames fnames) in
        ret {| self_phase := phase;
               self_files := files;
               self_transform := transform;
               self_voxel_size := voxel_size;
               self_matching_search_voxel_size := matching_search_voxel_size;
               self_random_scale := random_scale;
               self_min_scale := trainer_min_scale config;
               self_max_scale := trainer_max_scale config;
               self_random_rotation := random_rotation;
               self_rotation_range := trainer_rotation_range config;
               self_root_filelist := root_filelist;
               self_root := root |}
      else raise NotImplementedError
  end.

Definition transpose3 (R : mat3 F) : mat3 F :=
  let '((a, b, c), (d, e, f), (g, h, i)) := R in
  ((a, d, g), (b, e, h), (c, f, i)).

(** [R = trans[:3, :3]; T = trans[:3, 3]; pts @ R.T + T]. *)
Definition apply_transform (pts : list (vec3 F)) (trans : mat4 F)
  : list (vec3 F) :=
  let '((a, b, c, x), (d, e, f, y), (g, h, i, z), _) := trans in
  let R := ((a, b, c), (d, e, f), (g, h, i)) in
  let T := (x, y, z) in
  map (fun p => zip3 f_add (np_row_matmul p (transpose3 R)) T) pts.

(** [__len__] *)
Definition len (self : Dataset) : nat := length (self_files self).

(** *** [__getitem__]

    The body is cut at its blank lines and comments into [load_clouds] (the
    two [np.load]), [scale_clouds] ([if self.random_scale ...]),
    [rotate_clouds] ([if self.random_rotation ...]), [select_voxels] (the
    block under "Voxelization", once per cloud) and [build_sample] (the rest);
    [getitem] chains them. *)

(** [xyz[:, :3] = new]: the first three columns are overwritten in place. *)
Definition assign_pos (xyz : list row) (new : list (vec3 F)) : list row :=
  zip_with (fun r p => {| pos := p; extra := extra r |}) xyz new.

Definition load_clouds (self : Dataset) (idx : Z)
  : ST World (list row * list row) :=
  let* fpair := lift_result (py_index (self_files self) idx) in
  let file0 := os_path_join (self_root self) (fst fpair) in
  let file1 := os_path_join (self_root self) (snd fpair) in
  let* data0 := np_load file0 in
  let* data1 := np_load file1 in
  let* xyz0 := lift_result (npz_pcd data0) in
  let* xyz1 := lift_result (npz_pcd data1) in
  ret (xyz0, xyz1).

(** [random.random()] is drawn only when [self.random_scale] holds, and a
    second time for the scale. *)
Definition scale_clouds (self : Dataset) (xyz0 xyz1 : list row)
  : ST World (F * list row * list row) :=
  let matching_search_voxel_size := self_matching_search_voxel_size self in
  let* go := (if self_random_scale self
              then let* u := random_random in ret (f_lt u c_0_95)
              else ret false) in
  if (go : bool) then
    let* u := random_random in
    let scale :=
      f_add (self_min_scale self)
            (f_mul (f_sub (self_max_scale self) (self_min_scale self)) u) in
    ret (f_mul matching_search_voxel_size scale,
         assign_pos xyz0 (map (map3 (f_mul scale)) (map pos xyz0)),
         assign_pos xyz1 (map (map3 (f_mul scale)) (map pos xyz1)))
  else ret (matching_search_voxel_size, xyz0, xyz1).

Definition rotate_clouds (self : Dataset) (xyz0 xyz1 : list row)
  : ST World (mat4 F * list row * list row) :=
  if self_random_rotation self then
    let* T0 := with_randg (fun g => sample_random_trans (map pos xyz0) g
                                      (self_rotation_range self)) in
    let* T1 := with_randg (fun g => sample_random_trans (map pos xyz1) g
                                      (self_rotation_range self)) in
    let* T0_inv := lift_result (match np_linalg_inv T0 with
                                | Some m => Ok m
                                | None => Raise LinAlgError
                                end) in
    let trans := np_matmul4 T1 T0_inv in
    ret (trans,
         assign_pos xyz0 (apply_transform (map pos xyz0) T0),
         assign_pos xyz1 (apply_transform (map pos xyz1) T1))
  else ret (np_identity4, xyz0, xyz1).

(** [xyz_ = np.round(xyz.copy()[:, :3] / voxel_size);
     xyz_ -= xyz_.min(0, keepdims=1)].
    The minimum of an array without rows raises ValueError. *)
Definition voxel_coords (xyz : list row) (voxel_size : F)
  : result (list (vec3 F)) :=
  let r := map (fun p => map3 (fun x => np_round (f_div x voxel_size)) (pos p))
               xyz in
  match r with
  | [] => Raise ValueError
  | v :: vs =>
      let m := fold_left (zip3 f_min) vs v in
      Ok (map (fun p => zip3 f_sub p m) r)
  end.

(** [if len(sel) > sample_pts:
       np.random.seed(42)
       sel = np.random.choice(sel, sample_pts, replace=False)] *)
Definition subsample (sample_pts : Z) (sel : list nat) : ST World (list nat) :=
  if sample_pts <? Z.of_nat (length sel) then
    let* _ := np_random_seed 42 in
    np_random_choice sel sample_pts
  else ret sel.

Definition select_voxels (self : Dataset) (xyz : list row)
  : ST World (list (vec3 F) * list nat) :=
  let* xyz_ := lift_result (voxel_coords xyz (self_voxel_size self)) in
  let sel := sparse_quantize xyz_ in
  (* same num_points used in TARL *)
  let sample_pts := 40000 in
  let* sel := subsample sample_pts sel in
  ret (xyz_, sel).

Definition ones3 : vec3 F := (f_of_Z 1, f_of_Z 1, f_of_Z 1).

Definition call_transform (t : Transform) (coords feats : list (vec3 F))
  : ST World (list (vec3 F) * list (vec3 F)) :=
  fun w =>
    let '(r, (pg, ng)) := t coords feats (py_rng w, np_rng w) in
    (set_np_rng ng (set_py_rng pg w), Ok r).

Definition build_sample (self : Dataset) (matching_search_voxel_size : F)
    (trans : mat4 F) (color0 color1 : list (vec3 F)) (xyz0 xyz1 : list row)
  : ST World sample :=
  (* Voxelization *)
  let* (xyz0_, sel0) := select_voxels self xyz0 in
  let* (xyz1_, sel1) := select_voxels self xyz1 in
  (* Make point clouds using voxelized points *)
  let pcd0 := make_open3d_point_cloud (map pos xyz0) None in
  let pcd1 := make_open3d_point_cloud (map pos xyz1) None in
  (* Select features and points using the returned voxelized indices *)
  let* c0 := lift_result (np_take color0 sel0) in
  let* c1 := lift_result (np_take color1 sel1) in
  let* p0 := lift_result (np_take (points pcd0) sel0) in
  let* p1 := lift_result (np_take (points pcd1) sel1) in
  let pcd0 := {| points := p0; colors := c0 |} in
  let pcd1 := {| points := p1; colors := c1 |} in
  (* Get matches *)
  let* matches :=
    on_heap (new_list (map (fun p => EPair (fst p) (snd p))
                           (get_matching_indices pcd0 pcd1 trans
                              matching_search_voxel_size None))) in
  (* Get features *)
  let npts0 := length (colors pcd0) in
  let npts1 := length (colors pcd1) in
  let feats0 := repeat ones3 npts0 in
  let feats1 := repeat ones3 npts1 in
  (* Get coords *)
  let xyz_0 := points pcd0 in
  let xyz_1 := points pcd1 in
  let* coords0 := lift_result (np_take xyz0_ sel0) in
  let* coords1 := lift_result (np_take xyz1_ sel1) in
  let* (coords0, feats0, coords1, feats1) :=
    match self_transform self with
    | Some t =>
        let* (coords0, feats0) := call_transform t coords0 feats0 in
        let* (coords1, feats1) := call_transform t coords1 feats1 in
        ret (coords0, feats0, coords1, feats1)
    | None => ret (coords0, feats0, coords1, feats1)
    end in
  let* feats0 := lift_result (np_take xyz0 sel0) in
  let* feats1 := lift_result (np_take xyz1 sel1) in
  ret {| s_xyz0 := xyz_0; s_xyz1 := xyz_1;
         s_coords0 := coords0; s_coords1 := coords1;
         s_feats0 := feats0; s_feats1 := feats1;
         s_matching_inds := matches; s_trans := trans |}.

Definition getitem (self : Dataset) (idx : Z) : ST World sample :=
  let* (xyz0, xyz1) := load_clouds self idx in
  (* dummy color *)
  let color0 := repeat ones3 (length xyz0) in
  let color1 := repeat ones3 (length xyz1) in
  let* (matching_search_voxel_size, xyz0, xyz1) := scale_clouds self xyz0 xyz1 in
  let* (trans, xyz0, xyz1) := rotate_clouds self xyz0 xyz1 in
  build_sample self matching_search_voxel_size trans color0 color1 xyz0 xyz1.

(** The same dataset with another [transform] argument, and the two feature
    arrays of a sample. *)
Definition set_transform (t : option Transform) (self : Dataset) : Dataset :=
  {| self_phase := self_phase self;
     self_files := self_files self;
     self_transform := t;
     self_voxel_size := self_voxel_size self;
     self_matching_search_voxel_size := self_matching_search_voxel_size self;
     self_random_scale := self_random_scale self;
     self_min_scale := self_min_scale self;
     self_max_scale := self_max_scale self;
     self_random_rotation := self_random_rotation self;
     self_rotation_range := self_rotation_range self;
     self_root_filelist := self_root_filelist self;
     self_root := self_root self |}.

Definition feats_of (s : sample) : list row * list row :=
  (s_feats0 s, s_feats1 s).

End Module_.

(** ** What the theorems assume of the libraries *)

(** [RandomState.permutation(n)] returns a permutation of [range(n)]. *)
Class NumpyLaws (L : Libs) : Prop := {
  permutation_range :
    forall (g : NpRng) (n : nat), Permutation (fst (np_permutation g n)) (seq 0 n)
}.

(** [sparse_quantize] returns one index per occupied voxel: positions of the
    coordinate array, none twice. *)
Class QuantizeLaws (L : Libs) : Prop := {
  quantize_NoDup : forall c : list (vec3 F), List.NoDup (sparse_quantize c);
  quantize_bound :
    forall (c : list (vec3 F)) (i : nat),
      In i (sparse_quantize c) -> (i < length c)%nat
}.

(** The radius query of the k-d tree, against [in_radius r p q]: "the tree
    point [q] is within radius [r] of the query point [p]".  The query returns
    the positions of exactly these points, none twice; a point is within any
    positive radius of itself; what is within [r] is within [2 r]; and the
    identity matrix moves no point. *)
Class Open3dLaws (L : Libs) (in_radius : F -> vec3 F -> vec3 F -> Prop) : Prop := {
  search_NoDup :
    forall (tree : list (vec3 F)) (p : vec3 F) (r : F),
      List.NoDup (search_radius_vector_3d tree p r);
  search_in_radius :
    forall (tree : list (vec3 F)) (p : vec3 F) (r : F) (j : nat),
      In j (search_radius_vector_3d tree p r) <->
      exists q, tree !! j = Some q /\ in_radius r p q;
  in_radius_self :
    forall (r : F) (p : vec3 F), f_lt (f_of_Z 0) r = true -> in_radius r p p;
  in_radius_double :
    forall (r : F) (p q : vec3 F),
      in_radius r p q -> in_radius (f_mul (f_of_Z 2) r) p q;
  transform_identity :
    forall p : vec3 F, o3d_transform np_identity4 p = p
}.

(** ** A fixed-point instance of the libraries

    Numbers are integers counting thousandths, so every operation computes
    and equality is decidable.  The generators are linear congruential, the
    transcendental calls are replaced by short series, and the spatial
    queries are linear scans.  The instance serves to run the module on
    concrete inputs and to show that the laws above can be met together. *)
Module Ref.

Definition scale : Z := 1000.

Definition of_Z (z : Z) : Z := z * scale.
Definition mul (a b : Z) : Z := a * b / scale.
Definition div (a b : Z) : Z := a * scale / b.

(** Round to an integer, halves to even. *)
Definition round (a : Z) : Z :=
  let q := a / scale in
  let r := a mod scale in
  let q' := if 2 * r <? scale then q
            else if scale <? 2 * r then q + 1
            else if Z.even q then q else q + 1 in
  q' * scale.

Definition to_i32 (a : Z) : Z := Z.quot a scale.

Definition lcg (g : Z) : Z := (g * 1103515245 + 12345) mod 2 ^ 31.

(** A draw in [0, 1). *)
Definition draw (g : Z) : Z * Z :=
  let g' := lcg g in (g' * scale / 2 ^ 31, g').

(** The rotation of [range(n)] by an amount read off the state. *)
Definition permutation (g : Z) (n : nat) : list nat * Z :=
  let g' := lcg g in
  let k := Z.to_nat (g' mod Z.of_nat (S n)) in
  (skipn k (seq 0 n) ++ firstn k (seq 0 n), g').

Definition sum3 (v : vec3 Z) : Z := let '(x, y, z) := v in x + y + z.

Definition dot3 (u v : vec3 Z) : Z := sum3 (zip3 mul u v).

Definition mean (pts : list (vec3 Z)) : vec3 Z :=
  let n := Z.of_nat (length pts) in
  map3 (fun s => s / n)
       (fold_left (zip3 Z.add) pts (0, 0, 0)).

Definition norm2 (v : vec3 Z) : Z := Z.sqrt (sum3 (zip3 Z.mul v v)).

Definition cols3 (B : mat3 Z) : mat3 Z :=
  let '((a, b, c), (d, e, f), (g, h, i)) := B in
  ((a, d, g), (b, e, h), (c, f, i)).

Definition matvec3 (A : mat3 Z) (v : vec3 Z) : vec3 Z :=
  map3 (fun r => dot3 r v) A.

Definition rowmat3 (p : vec3 Z) (B : mat3 Z) : vec3 Z :=
  map3 (fun c => dot3 p c) (cols3 B).

Definition matmul3 (A B : mat3 Z) : mat3 Z :=
  map3 (fun r => rowmat3 r B) A.

Definition id3 : mat3 Z :=
  ((scale, 0, 0), (0, scale, 0), (0, 0, scale)).

(** [I + A + A A / 2]. *)
Definition expm2 (A : mat3 Z) : mat3 Z :=
  zip3 (zip3 Z.add) (zip3 (zip3 Z.add) id3 A)
       (map3 (map3 (fun x => x / 2)) (matmul3 A A)).

Definition sum4 (v : vec4 Z) : Z := let '(x, y, z, w) := v in x + y + z + w.

Definition dot4 (u v : vec4 Z) : Z :=
  let '(a, b, c, d) := u in
  let '(x, y, z, w) := v in
  mul a x + mul b y + mul c z + mul d w.

Definition cols4 (B : mat4 Z) : mat4 Z :=
  let '((a0, a1, a2, a3), (b0, b1, b2, b3),
        (c0, c1, c2, c3), (d0, d1, d2, d3)) := B in
  ((a0, b0, c0, d0), (a1, b1, c1, d1), (a2, b2, c2, d2), (a3, b3, c3, d3)).

Definition matmul4 (A B : mat4 Z) : mat4 Z :=
  map4 (fun r => map4 (fun c => dot4 r c) (cols4 B)) A.

Definition det3 (A : mat3 Z) : Z :=
  let '((a, b, c), (d, e, f), (g, h, i)) := A in
  mul a (mul e i - mul f h) - mul b (mul d i - mul f g)
  + mul c (mul d h - mul e g).

(** The inverse of [[A t] [0 1]] is [[A' (- A' t)] [0 1]] with [A'] the
    adjugate of [A] over its determinant; no inverse when that is zero. *)
Definition inv4 (T : mat4 Z) : option (mat4 Z) :=
  let '((a, b, c, x), (d, e, f, y), (g, h, i, z), _) := T in
  let A := ((a, b, c), (d, e, f), (g, h, i)) in
  let dt := det3 A in
  if dt =? 0 then None
  else
    let co p q r s := div (mul p q - mul r s) dt in
    let A' := ((co e i f h, co c h b i, co b f c e),
               (co f g d i, co a i c g, co c d a f),
               (co d h e g, co b g a h, co a e b d)) in
    let '(x', y', z') := matvec3 A' (- x, - y, - z) in
    let '((a', b', c'), (d', e', f'), (g', h', i')) := A' in
    Some ((a', b', c', x'), (d', e', f', y'), (g', h', i', z'),
          (0, 0, 0, scale)).

Definition vec_eqb (u v : vec3 Z) : bool :=
  let '(a, b, c) := u in
  let '(x, y, z) := v in
  (a =? x) && (b =? y) && (c =? z).

(** The first point of each voxel. *)
Definition quantize (c : list (vec3 Z)) : list nat :=
  List.filter (fun i => match c !! i with
                   | Some v => negb (existsb (vec_eqb v) (firstn i c))
                   | None => false
                   end)
         (seq 0 (length c)).

(** Homogeneous coordinates, divided by the last one. *)
Definition transform (T : mat4 Z) (p : vec3 Z) : vec3 Z :=
  let '(x, y, z) := p in
  let '(r0, r1, r2, r3) := T in
  let h := (x, y, z, scale) in
  let w := dot4 r3 h in
  (div (dot4 r0 h) w, div (dot4 r1 h) w, div (dot4 r2 h) w).

Definition dist2 (p q : vec3 Z) : Z :=
  let d := zip3 Z.sub p q in sum3 (zip3 Z.mul d d).

(** Modelled from the spec: the neighbourhood of the radius query, which
    open3d computes and the sources do not contain.  The spec has "all target
    points within search_radius (Euclidean, inclusive boundary)": Euclidean
    distance at most [r], the boundary included. *)
Definition within (r : Z) (p q : vec3 Z) : Prop :=
  0 <= r /\ dist2 p q <= r * r.

Definition withinb (r : Z) (p q : vec3 Z) : bool :=
  (0 <=? r) && (dist2 p q <=? r * r).

(** Modelled from the spec: the radius query of the spatial index
    ([KDTreeFlann.search_radius_vector_3d] of open3d, not in the sources), as
    a linear scan that returns the positions of the target points [within]
    the radius, in array order; no point, no result. *)
Definition search (tree : list (vec3 Z)) (p : vec3 Z) (r : Z) : list nat :=
  List.filter (fun j => match tree !! j with
                   | Some q => withinb r p q
                   | None => false
                   end)
         (seq 0 (length tree)).

#[export] Instance libs : Libs := {|
  F := Z;
  F32 := Z;
  f_of_Z := of_Z;
  c_0_95 := 950;
  c_0_5 := 500;
  c_pi := 3142;
  f_add := Z.add;
  f_sub := Z.sub;
  f_mul := mul;
  f_div := div;
  f_neg := Z.opp;
  f_lt := Z.ltb;
  f_min := Z.min;
  np_round := round;
  f64_to_f32 := fun x => x;
  f64_to_i32 := to_i32;
  i32_out_of_range := fun _ => - 2 ^ 31;
  PyRng := Z;
  py_random := draw;
  NpRng := Z;
  np_seed := fun z => z;
  np_rand1 := draw;
  np_permutation := permutation;
  np_mean := mean;
  norm := norm2;
  expm := expm2;
  np_dot := matvec3;
  np_row_matmul := rowmat3;
  np_matmul4 := matmul4;
  np_linalg_inv := inv4;
  sparse_quantize := quantize;
  o3d_transform := transform;
  search_radius_vector_3d := search
|}.

End Ref.

(** ** Concrete inputs

    Two small clouds with one extra column, a file list that pairs them, a
    configuration, and three samples whose correspondence lists sit in a
    store; the second list is empty. *)
Module Demo.
Import Ref.

Definition pt (x y z : Z) : row := {| pos := (x, y, z); extra := [500] |}.

Definition cloud_a : list row :=
  [pt 0 0 0; pt 100 0 0; pt 1000 0 0; pt 2000 1000 0].

Definition cloud_b : list row :=
  [pt 0 0 0; pt 1000 0 0; pt 1100 0 0; pt 2000 1000 0; pt 9000 9000 9000].

Definition pcd_a : PointCloud :=
  make_open3d_point_cloud [(0, 0, 0); (1000, 0, 0); (2000, 1000, 0)] None.

Definition pcd_b : PointCloud :=
  make_open3d_point_cloud
    [(0, 0, 0); (1000, 0, 0); (1100, 0, 0); (2000, 1000, 0); (9000, 9000, 9000)]
    None.

Definition pcd_empty : PointCloud := make_open3d_point_cloud [] None.

Definition newline : string := String (ascii_of_nat 10) EmptyString.

Definition files : gmap string file :=
  <["/data/pairs.txt"%string := TextFile [String.append "a.npz b.npz" newline]]>
  (<["/data/a.npz"%string := NpzFile (Some cloud_a)]>
   (<["/data/b.npz"%string := NpzFile (Some cloud_b)]> ∅)).

Definition config : Config :=
  {| data_voxel_size := 500;
     trainer_positive_pair_search_voxel_size_multiplier := 1500;
     trainer_min_scale := 800;
     trainer_max_scale := 1200;
     trainer_rotation_range := 20000;
     data_scannet_match_dir := "pairs.txt";
     data_dataset_root_dir := "/data" |}.

Definition world : World :=
  {| heap := ∅; disk := files; opened := []; py_rng := 1; np_rng := 2;
     randg := 3; os_entropy := 7 |}.

(** The dataset that [init "train"] builds with rotation and scaling on, and
    the world it leaves. *)
Definition dataset : Dataset :=
  {| self_phase := "train";
     self_files := [("a.npz"%string, "b.npz"%string)];
     self_transform := None;
     self_voxel_size := 500;
     self_matching_search_voxel_size := 750;
     self_random_scale := true;
     self_min_scale := 800;
     self_max_scale := 1200;
     self_random_rotation := true;
     self_rotation_range := 20000;
     self_root_filelist := "pairs.txt";
     self_root := "/data" |}.

(** A jitter for the demo: it moves every feature by a number drawn from the
    global NumPy generator and leaves the coordinates alone. *)
Definition jitter : Transform :=
  fun coords feats '(pg, ng) =>
    let ng' := lcg ng in
    ((coords, map (map3 (fun x => x + ng' mod 50)) feats), (pg, ng')).

Definition world_built : World :=
  {| heap := ∅; disk := files; opened := ["/data/pairs.txt"%string];
     py_rng := 1; np_rng := 2; randg := 7; os_entropy := 7 |}.

(** Item 0 of that dataset, and the world after it was built: the two
    clouds were read, both generators of the dataset moved, and the list of
    correspondences is a new object of the store. *)
Definition item : sample :=
  {| s_xyz0 := [(-681, -190, -37); (186, -226, 3); (1086, 606, 63)];
     s_xyz1 := [(-1957, -1768, -1919); (-1095, -1688, -1844);
                (-323, -747, -1685); (4376, 5873, 7272)];
     s_coords0 := [(0, 0, 0); (1000, 0, 0); (3000, 1000, 0)];
     s_coords1 := [(0, 0, 0); (2000, 1000, 0); (3000, 3000, 1000);
                   (13000, 16000, 19000)];
     s_feats0 := [{| pos := (-681, -190, -37); extra := [500] |};
                  {| pos := (186, -226, 3); extra := [500] |};
                  {| pos := (1086, 606, 63); extra := [500] |}];
     s_feats1 := [{| pos := (-1957, -1768, -1919); extra := [500] |};
                  {| pos := (-1095, -1688, -1844); extra := [500] |};
                  {| pos := (-323, -747, -1685); extra := [500] |};
                  {| pos := (4376, 5873, 7272); extra := [500] |}];
     s_matching_inds := 0%nat;
     s_trans := ((987, -143, -35, -1315), (135, 987, -79, -1493),
                 (41, 71, 995, -1842), (0, 0, 0, 1000)) |}.

Definition world_item : World :=
  {| heap := <[0%nat := [EPair 0 0; EPair 1 1; EPair 2 2]]> ∅;
     disk := files;
     opened := ["/data/b.npz"%string; "/data/a.npz"%string;
                "/data/pairs.txt"%string];
     py_rng := 377401575; np_rng := 2; randg := 2083449087; os_entropy := 7 |}.

Definition sample_a : sample :=
  {| s_xyz0 := [(0, 0, 0); (1000, 0, 0)];
     s_xyz1 := [(0, 0, 0); (1000, 0, 0); (2000, 0, 0)];
     s_coords0 := [(0, 0, 0); (2000, 0, 0)];
     s_coords1 := [(0, 0, 0); (2000, 0, 0); (4000, 0, 0)];
     s_feats0 := [pt 0 0 0; pt 1000 0 0];
     s_feats1 := [pt 0 0 0; pt 1000 0 0; pt 2000 0 0];
     s_matching_inds := 0%nat;
     s_trans := np_identity4 |}.

Definition sample_b : sample :=
  {| s_xyz0 := [(0, 0, 0)];
     s_xyz1 := [(9000, 0, 0)];
     s_coords0 := [(0, 0, 0)];
     s_coords1 := [(18000, 0, 0)];
     s_feats0 := [pt 0 0 0];
     s_feats1 := [pt 9000 0 0];
     s_matching_inds := 1%nat;
     s_trans := np_identity4 |}.

Definition sample_c : sample :=
  {| s_xyz0 := [(0, 0, 0); (1000, 0, 0)];
     s_xyz1 := [(1000, 0, 0); (5000, 0, 0)];
     s_coords0 := [(0, 0, 0); (2000, 0, 0)];
     s_coords1 := [(2000, 0, 0); (10000, 0, 0)];
     s_feats0 := [pt 0 0 0; pt 1000 0 0];
     s_feats1 := [pt 1000 0 0; pt 5000 0 0];
     s_matching_inds := 2%nat;
     s_trans := np_identity4 |}.

Definition samples : list sample := [sample_a; sample_b; sample_c].

Definition store : gmap loc (list pyelem) :=
  <[0%nat := [EPair 0 0; EPair 1 1]]>
  (<[1%nat := []]> (<[2%nat := [EPair 1 0]]> ∅)).

End Demo.

(** ** The rest of the module: [sample_random_rts] and [make_data_loader] *)

Section Loader.
Context {L : Libs}.

(** The arguments [make_data_loader] passes to
    [torch.utils.data.DataLoader]; [collate_fn] is the function itself. *)
Record LoaderArgs (Sampler : Type) : Type := {
  ld_dataset : Dataset;
  ld_batch_size : Z;
  ld_shuffle : bool;
  ld_num_workers : Z;
  ld_collate_fn : list sample -> ST (gmap loc (list pyelem)) batch;
  ld_pin_memory : bool;
  ld_sampler : option Sampler;
  ld_drop_last : bool
}.
Arguments ld_dataset {Sampler} _.
Arguments ld_batch_size {Sampler} _.
Arguments ld_shuffle {Sampler} _.
Arguments ld_num_workers {Sampler} _.
Arguments ld_collate_fn {Sampler} _.
Arguments ld_pin_memory {Sampler} _.
Arguments ld_sampler {Sampler} _.
Arguments ld_drop_last {Sampler} _.

(** The further calls into libraries and into modules that are not this
    one: [np.random.uniform(low, high)] on the global generator; the value
    of [t.Compose([t.Jitter()])] ([lib.transforms]);
    [DistributedInfSampler(dset)] ([lib.data_sampler]) and the truth value
    Python gives the sampler object; [torch.utils.data.DataLoader(...)]. *)
Class LoaderLibs : Type := {
  np_uniform : F -> F -> NpRng -> F * NpRng;
  compose_jitter : Transform;
  Sampler : Type;
  DistributedInfSampler : Dataset -> result Sampler;
  sampler_bool : Sampler -> bool;
  DataLoader : Type;
  torch_DataLoader : LoaderArgs Sampler -> result DataLoader
}.

Context {T : LoaderLibs}.

(** *** [sample_random_rts] *)

(** [np.random.uniform(low, high, 3)]: three successive draws. *)
Definition uniform3 (low high : F) (g : NpRng) : vec3 F * NpRng :=
  let '(a, g) := np_uniform low high g in
  let '(b, g) := np_uniform low high g in
  let '(c, g) := np_uniform low high g in
  ((a, b, c), g).

(** [T_scale = np.eye(4); np.fill_diagonal(T_scale[:3, :3], scale)]. *)
Definition fill_diagonal3 (scale : F) : mat4 F :=
  let o := f_of_Z 1 in let z := f_of_Z 0 in
  ((scale, z, z, z), (z, scale, z, z), (z, z, scale, z), (z, z, z, o)).

(** [sample_random_rts(pcd, randg, rotation_range, scale_range,
    translation_range)].  The rotation draws from [randg], the scale and the
    translation from the global generator of [np.random], which is the last
    argument and the last component of the result; a range is [None] or a
    pair (low, high).  [A @ B @ C] is [(A @ B) @ C]. *)
Definition sample_random_rts (pcd : list (vec3 F)) (randg : NpRng)
    (rotation_range : F) (scale_range translation_range : option (F * F))
    (np_rng : NpRng) : mat4 F * NpRng * NpRng :=
  (* first minus mean (centering), then rotation 360 degrees *)
  let '(u, g) := rand3 randg in
  let '(t, g) := np_rand1 g in
  let R := M (map3 (fun x => f_sub x c_0_5) u)
             (f_mul (f_div (f_mul rotation_range c_pi) (f_of_Z 180))
                    (f_sub t c_0_5)) in
  let T_rot := affine4 R (np_dot R (map3 f_neg (np_mean pcd))) in
  let '(T_scale, np_rng) :=
    match scale_range with
    | Some (low, high) =>
        let '(scale, n) := np_uniform low high np_rng in
        (fill_diagonal3 scale, n)
    | None => (np_identity4, np_rng)
    end in
  let '(T_translation, np_rng) :=
    match translation_range with
    | Some (low, high) =>
        let '(offside, n) := uniform3 low high np_rng in
        (affine4 eye3 offside, n)
    | None => (np_identity4, np_rng)
    end in
  (np_matmul4 (np_matmul4 T_rot T_scale) T_translation, g, np_rng).

(** *** [make_data_loader] *)

(** The fields of [config] that [make_data_loader] reads, with those the
    dataset reads. *)
Record LoaderConfig : Type := {
  dataset_config : Config;
  data_dataset : string;
  trainer_use_random_rotation : bool;
  trainer_use_random_scale : bool;
  misc_num_gpus : Z
}.

(** A dataset class: its constructor. *)
Definition DatasetClass : Type :=
  string -> option Transform -> bool -> bool -> bool -> option Config ->
  ST World Dataset.

(** [ALL_DATASETS = [ScanNetMatchPairDataset]] and
    [dataset_str_mapping = {d.__name__: d for d in ALL_DATASETS}]. *)
Definition ALL_DATASETS : list (string * DatasetClass) :=
  [("ScanNetMatchPairDataset"%string, init)].

Definition dataset_str_mapping : gmap string DatasetClass :=
  list_to_map ALL_DATASETS.

(** The integer division of [make_data_loader] raises an exception of its
    own. *)
Inductive loader_result (A : Type) : Type :=
| Built (a : A)
| Failed (e : exn)
| ZeroDivisionError.
Arguments Built {A} a.
Arguments Failed {A} e.
Arguments ZeroDivisionError {A}.

(** [make_data_loader(config, batch_size, num_threads)].  The message that
    [logging.error] writes for an unknown dataset stops nothing: the lookup
    on the next line raises.  [//] is the floor division of integers. *)
Definition make_data_loader (config : LoaderConfig) (batch_size num_threads : Z)
  : World -> World * loader_result DataLoader :=
  fun w =>
    match dataset_str_mapping !! data_dataset config with
    | None => (w, Failed KeyError)
    | Some Dataset =>
        let use_random_rotation := trainer_use_random_rotation config in
        let use_random_scale := trainer_use_random_scale config in
        match Dataset "train"%string (Some compose_jitter) use_random_rotation
                use_random_scale false (Some (dataset_config config)) w with
        | (w1, Raise e) => (w1, Failed e)
        | (w1, Ok dset) =>
            let collate_pair_fn := default_collate_pair_fn in
            if misc_num_gpus config =? 0 then (w1, ZeroDivisionError)
            else
              let batch_size := batch_size / misc_num_gpus config in
              match (if 1 <? misc_num_gpus config
                     then map_result Some (DistributedInfSampler dset)
                     else Ok None) with
              | Raise e => (w1, Failed e)
              | Ok sampler =>
                  match torch_DataLoader
                          {| ld_dataset := dset;
                             ld_batch_size := batch_size;
                             ld_shuffle :=
                               match sampler with
                               | Some s => if sampler_bool s then false else true
                               | None => true
                               end;
                             ld_num_workers := num_threads;
                             ld_collate_fn := collate_pair_fn;
                             ld_pin_memory := false;
                             ld_sampler := sampler;
                             ld_drop_last := true |} with
                  | Ok loader => (w1, Built loader)
                  | Raise e => (w1, Failed e)
                  end
              end
        end
    end.

(** *** The vocabulary of the further statements *)

(** The state of a NumPy generator after [n] calls of [rand], and of the
    generator of [random] after [n] calls of [random.random()]. *)
Definition np_skip (n : nat) (g : NpRng) : NpRng :=
  Nat.iter n (fun g => snd (np_rand1 g)) g.

Definition py_skip (n : nat) (g : PyRng) : PyRng :=
  Nat.iter n (fun g => snd (py_random g)) g.

(** The batch index that leads a row of tagged coordinates. *)
Definition tag_of (r : vec4 Z) : Z := let '(t, _, _, _) := r in t.

(** Cutting a concatenated array back into pieces of the given sizes. *)
Fixpoint unbatch {A} (sizes : list Z) (rows : list A) : list (list A) :=
  match sizes with
  | [] => []
  | n :: sizes' =>
      firstn (Z.to_nat n) rows :: unbatch sizes' (skipn (Z.to_nat n) rows)
  end.

(** The batch the collator builds of well-formed samples, the lists of
    correspondences read in the store [h]. *)
Definition batch_of (h : gmap loc (list pyelem)) (samples : list sample) : batch :=
  {| pcd0 := map (map3 f64_to_f32) (concat (map s_xyz0 samples));
     pcd1 := map (map3 f64_to_f32) (concat (map s_xyz1 samples));
     sinput0_C := concat (imap (fun k s => tag_coords k (s_coords0 s)) samples);
     sinput0_F :=
       map (fun r => map f64_to_f32 (row_to_list r))
           (concat (map s_feats0 samples));
     sinput1_C := concat (imap (fun k s => tag_coords k (s_coords1 s)) samples);
     sinput1_F :=
       map (fun r => map f64_to_f32 (row_to_list r))
           (concat (map s_feats1 samples));
     correspondences := concat (imap (sample_rows h samples) samples);
     T_gt := map (map4 f64_to_f32) (concat (map rows4 (map s_trans samples)));
     len_batch := map (fun s => (count0 s, count1 s)) samples |}.

(** The two paths [__getitem__] loads for a pair of file names. *)
Definition item_paths (self : Dataset) (fpair : string * string)
  : string * string :=
  (os_path_join (self_root self) (fst fpair),
   os_path_join (self_root self) (snd fpair)).

(** [w'] comes after [w]: same disk, same entropy, every list object of [w]
    with its content, and the paths opened so far still at the end of
    [opened]. *)
Definition later (w w' : World) : Prop :=
  disk w' = disk w /\ os_entropy w' = os_entropy w /\
  (forall l v, heap w !! l = Some v -> heap w' !! l = Some v) /\
  exists new, opened w' = new ++ opened w.

(** Two worlds that agree on what an item is computed from. *)
Definition same_inputs (w1 w2 : World) : Prop :=
  heap w1 = heap w2 /\ disk w1 = disk w2 /\
  py_rng w1 = py_rng w2 /\ randg w1 = randg w2.

(** Devices of the proofs about the item builder: a computation that leaves
    a world [later] than the one it starts from, and a computation that, run
    in two worlds with the [same_inputs], ends the same way in two such
    worlds. *)
Definition frames {A} (m : ST World A) : Prop :=
  forall w, later w (fst (m w)).

Definition agrees {A} (m : ST World A) : Prop :=
  forall w1 w2, same_inputs w1 w2 ->
    same_inputs (fst (m w1)) (fst (m w2)) /\ snd (m w1) = snd (m w2).

(** [samples] are the items that successive calls of [__getitem__] returned,
    from the world [w] to the world [w']. *)
Inductive fetched (self : Dataset) : World -> list sample -> World -> Prop :=
| fetched_nil w : fetched self w [] w
| fetched_cons w idx w1 s rest w' :
    getitem self idx w = (w1, Ok s) ->
    fetched self w1 rest w' ->
    fetched self w (s :: rest) w'.

End Loader.

Arguments ld_dataset {L Sampler} _.
Arguments ld_batch_size {L Sampler} _.
Arguments ld_shuffle {L Sampler} _.
Arguments ld_num_workers {L Sampler} _.
Arguments ld_collate_fn {L Sampler} _.
Arguments ld_pin_memory {L Sampler} _.
Arguments ld_sampler {L Sampler} _.
Arguments ld_drop_last {L Sampler} _.
Arguments Built {A} a.
Arguments Failed {A} e.
Arguments ZeroDivisionError {A}.

(** A fixed-point instance of the further calls: a uniform draw scaled from
    the generator, the jitter of the demo, a sampler that is the length of
    its dataset (and is false, as Python has it, when that is 0), and a
    [DataLoader] that keeps its arguments and refuses, as torch does, a batch
    size that is not positive or a sampler together with [shuffle]. *)
Module RefLoader.
Import Ref.

Definition uniform (low high g : Z) : Z * Z :=
  let '(u, g') := draw g in (low + mul (high - low) u, g').

Definition data_loader (args : LoaderArgs nat) : result (LoaderArgs nat) :=
  if ld_batch_size args <=? 0 then Raise ValueError
  else match ld_sampler args with
       | Some _ => if ld_shuffle args then Raise ValueError else Ok args
       | None => Ok args
       end.

#[export] Instance loader_libs : LoaderLibs := {|
  np_uniform := uniform;
  compose_jitter := Demo.jitter;
  Sampler := nat;
  DistributedInfSampler := fun dset => Ok (len dset);
  sampler_bool := fun n => negb (n =? 0)%nat;
  DataLoader := LoaderArgs nat;
  torch_DataLoader := data_loader
|}.

Definition loader_config (name : string) (num_gpus : Z) : LoaderConfig :=
  {| dataset_config := Demo.config;
     data_dataset := name;
     trainer_use_random_rotation := true;
     trainer_use_random_scale := true;
     misc_num_gpus := num_gpus |}.

(** The demo dataset with the jitter, as [make_data_loader] builds it. *)
Definition dataset_jitter : Dataset :=
  set_transform (Some Demo.jitter) Demo.dataset.

End RefLoader.

(** * Theorems *)

(** ** Lists, slices and index arrays *)

Section ListFacts.
Context {A B : Type}.

Lemma fold_left_snoc (h : A -> B) (l : list A) (acc : list B) :
  fold_left (fun a x => a ++ [h x]) l acc = acc ++ map h l.
Proof.
  revert acc. induction l as [|x l IH]; intros acc; simpl.
  - now rewrite app_nil_r.
  - rewrite IH, <- app_assoc. reflexivity.
Qed.

Lemma fold_left_extend (g : A -> list B) (l : list A) (acc : list B) :
  fold_left (fun a x => a ++ g x) l acc = acc ++ concat (map g l).
Proof.
  revert acc. induction l as [|x l IH]; intros acc; simpl.
  - now rewrite app_nil_r.
  - rewrite IH, <- app_assoc. reflexivity.
Qed.

Lemma fold_left_pointwise (f g : B -> A -> B) (l : list A) (b : B) :
  (forall acc x, f acc x = g acc x) -> fold_left f l b = fold_left g l b.
Proof.
  intros H. revert b. induction l as [|x l IH]; intros b; simpl; [reflexivity |].
  now rewrite H, IH.
Qed.

Lemma enumerate_from_cons (s : nat) (x : A) (l : list A) :
  enumerate_from s (x :: l) = (s, x) :: enumerate_from (S s) l.
Proof. reflexivity. Qed.

Lemma in_enumerate_from (s : nat) (l : list A) (i : nat) (x : A) :
  In (i, x) (enumerate_from s l) <-> (s <= i)%nat /\ l !! (i - s)%nat = Some x.
Proof.
  revert s. induction l as [|y l IH]; intros s.
  - simpl. split; [tauto | intros [_ H]; discriminate].
  - rewrite enumerate_from_cons. simpl. rewrite IH. split.
    + intros [H | [H1 H2]].
      * injection H as -> ->. split; [lia |]. now rewrite Nat.sub_diag.
      * split; [lia |]. replace (i - s)%nat with (S (i - S s)) by lia. exact H2.
    + intros [H1 H2]. destruct (Nat.eq_dec i s) as [-> | Hne].
      * left. rewrite Nat.sub_diag in H2. simpl in H2. congruence.
      * right. split; [lia |].
        replace (i - s)%nat with (S (i - S s)) in H2 by lia. exact H2.
Qed.

Lemma in_enumerate (l : list A) (i : nat) (x : A) :
  In (i, x) (enumerate l) <-> l !! i = Some x.
Proof.
  unfold enumerate. rewrite in_enumerate_from, Nat.sub_0_r.
  split; [tauto | split; [lia | assumption]].
Qed.

Lemma enumerate_map {C} (f : A -> C) (l : list A) :
  enumerate (map f l) = map (fun ip => (fst ip, f (snd ip))) (enumerate l).
Proof.
  unfold enumerate, enumerate_from. rewrite length_map. generalize 0%nat.
  induction l as [|x l IH]; intros s; simpl; [reflexivity |].
  now rewrite IH.
Qed.

Lemma in_firstn_in (n : nat) (l : list A) (x : A) : In x (firstn n l) -> In x l.
Proof.
  revert n. induction l as [|y l IH]; intros [|n]; simpl; try tauto.
  intros [H | H]; [now left | right; eauto].
Qed.

Lemma NoDup_firstn (n : nat) (l : list A) :
  List.NoDup l -> List.NoDup (firstn n l).
Proof.
  intros H. rewrite <- (firstn_skipn n l) in H. now apply NoDup_app_remove_r in H.
Qed.

Lemma py_slice_to_nonneg (lst : list A) (k : Z) :
  0 <= k -> py_slice_to lst k = firstn (Z.to_nat k) lst.
Proof.
  intros Hk. unfold py_slice_to.
  destruct (Z.ltb_spec k 0) as [? | _]; [lia |].
  destruct (Z.le_ge_cases k (Z.of_nat (length lst))) as [H | H].
  - now rewrite Z.min_l.
  - rewrite Z.min_r, Nat2Z.id by assumption.
    rewrite !firstn_all2; [reflexivity | lia | lia].
Qed.

Lemma py_slice_to_nil (k : Z) : py_slice_to (@nil A) k = [].
Proof. unfold py_slice_to. now rewrite firstn_nil. Qed.

Lemma in_py_slice_to (l : list A) (k : Z) (x : A) :
  In x (py_slice_to l k) -> In x l.
Proof. unfold py_slice_to. apply in_firstn_in. Qed.

Lemma NoDup_py_slice_to (l : list A) (k : Z) :
  List.NoDup l -> List.NoDup (py_slice_to l k).
Proof. unfold py_slice_to. apply NoDup_firstn. Qed.

Lemma length_concat_le (f g : A -> list B) (l : list A) :
  (forall x, (length (f x) <= length (g x))%nat) ->
  (length (concat (map f l)) <= length (concat (map g l)))%nat.
Proof.
  intros H. induction l as [|x l IH]; simpl; [lia |].
  rewrite !length_app. specialize (H x). lia.
Qed.

(** Groups that are free of repetitions and carry their own number. *)
Lemma NoDup_groups (g : nat * A -> list (Z * B)) (l : list A) (s : nat) :
  (forall ip, List.NoDup (g ip)) ->
  (forall ip y, In y (g ip) -> fst y = Z.of_nat (fst ip)) ->
  List.NoDup (concat (map g (enumerate_from s l))).
Proof.
  intros Hnd Hfst. revert s. induction l as [|x l IH]; intros s.
  - constructor.
  - rewrite enumerate_from_cons. simpl.
    apply List.NoDup_app; [apply Hnd | apply IH |].
    intros y Hy Hy'. apply in_concat in Hy' as (ys & Hys & Hin).
    apply in_map_iff in Hys as ([i x'] & <- & Hix).
    apply in_enumerate_from in Hix as [Hle _].
    apply Hfst in Hy, Hin. simpl in *. lia.
Qed.

(** [np_take] succeeds on positions of the array and reads them off. *)
Lemma np_take_spec (a : list A) (sel : list nat) :
  (forall i, In i sel -> (i < length a)%nat) ->
  exists l, np_take a sel = Ok l /\ Forall2 (fun i x => a !! i = Some x) sel l.
Proof.
  induction sel as [|i sel IH]; intros H.
  - exists []. split; [reflexivity | constructor].
  - destruct IH as (l & Hl & HF); [intros j Hj; apply H; now right |].
    destruct (lookup_lt_is_Some_2 a i) as [x Hx]; [apply H; now left |].
    exists (x :: l). simpl. rewrite Hx, Hl. split; [reflexivity |].
    now constructor.
Qed.

Lemma Forall2_lookup_length (a : list A) sel l :
  Forall2 (fun i x => a !! i = Some x) sel l -> length l = length sel.
Proof. intros H. symmetry. eapply Forall2_length. exact H. Qed.

Lemma Forall2_lookup_In (a : list A) sel l x :
  Forall2 (fun i x => a !! i = Some x) sel l -> In x l ->
  exists i, In i sel /\ a !! i = Some x.
Proof.
  induction 1 as [|i y sel l Hy HF IH]; intros Hin; [destruct Hin |].
  destruct Hin as [<- | Hin].
  - exists i. split; [now left | assumption].
  - destruct (IH Hin) as (j & Hj & Hx). exists j. split; [now right | assumption].
Qed.

Lemma Forall2_lookup_NoDup (a : list A) sel l :
  List.NoDup a -> List.NoDup sel ->
  Forall2 (fun i x => a !! i = Some x) sel l -> List.NoDup l.
Proof.
  intros Ha Hsel HF. induction HF as [|i y sel l Hy HF IH]; [constructor |].
  apply List.NoDup_cons_iff in Hsel as [Hi Hsel]. constructor; [| now apply IH].
  intros Hin. destruct (Forall2_lookup_In _ _ _ _ HF Hin) as (j & Hj & Hx).
  apply NoDup_ListNoDup in Ha.
  assert (i = j) by (eapply NoDup_lookup; eauto). subst j. contradiction.
Qed.

End ListFacts.

(** ** The monad *)

Lemma bind_inv {S A B} (m : ST S A) (k : A -> ST S B) s s2 b :
  bind m k s = (s2, Ok b) -> exists s1 a, m s = (s1, Ok a) /\ k a s1 = (s2, Ok b).
Proof.
  unfold bind. destruct (m s) as [s1 [a | e]]; [| discriminate].
  intros H. now exists s1, a.
Qed.

Lemma lift_result_inv {S A} (r : result A) (s s' : S) (a : A) :
  lift_result r s = (s', Ok a) -> r = Ok a /\ s' = s.
Proof. unfold lift_result. intros H. injection H as -> ->. now split. Qed.

Lemma ret_inv {S A} (a b : A) (s s' : S) :
  ret a s = (s', Ok b) -> b = a /\ s' = s.
Proof. unfold ret. intros H. injection H as -> ->. now split. Qed.

(** Two computations that differ after a common first step agree on a view
    [f] of their results as soon as their continuations do. *)
Lemma bind_agree {S A B C} (f : B -> C) (m : ST S A) (k1 k2 : A -> ST S B)
    (s : S) :
  (forall a s', map_result f (snd (k1 a s')) = map_result f (snd (k2 a s'))) ->
  map_result f (snd (bind m k1 s)) = map_result f (snd (bind m k2 s)).
Proof.
  intros H. unfold bind. destruct (m s) as [s' [a | e]]; [apply H | reflexivity].
Qed.

(** ** The fixed-point instance meets the laws *)

Lemma ref_numpy_laws : NumpyLaws Ref.libs.
Proof.
  split. intros g n. simpl. unfold Ref.permutation. simpl.
  rewrite Permutation_app_comm, firstn_skipn. reflexivity.
Qed.

Lemma ref_quantize_laws : QuantizeLaws Ref.libs.
Proof.
  split.
  - intros c. apply List.NoDup_filter, seq_NoDup.
  - intros c i Hi. simpl in Hi. unfold Ref.quantize in Hi.
    apply filter_In in Hi as [Hi _]. apply in_seq in Hi as [_ Hi]. exact Hi.
Qed.

Lemma ref_withinb_iff r p q : Ref.withinb r p q = true <-> Ref.within r p q.
Proof.
  unfold Ref.withinb, Ref.within. rewrite andb_true_iff, !Z.leb_le. reflexivity.
Qed.

Lemma ref_mul_of_Z (k x : Z) : Ref.mul (Ref.of_Z k) x = k * x.
Proof.
  unfold Ref.mul, Ref.of_Z, Ref.scale.
  replace (k * 1000 * x) with (k * x * 1000) by lia. now apply Z.div_mul.
Qed.

Lemma ref_transform_identity (p : vec3 Z) :
  Ref.transform (@np_identity4 Ref.libs) p = p.
Proof.
  destruct p as [[x y] z]. unfold Ref.transform, np_identity4. simpl.
  unfold Ref.dot4. rewrite !ref_mul_of_Z. unfold Ref.div, Ref.scale.
  rewrite !Z.mul_0_l, !Z.add_0_l, !Z.add_0_r, !Z.mul_1_l.
  rewrite !Z.div_mul by lia. reflexivity.
Qed.

Lemma ref_search_in (tree : list (vec3 Z)) (p : vec3 Z) (r : Z) (j : nat) :
  In j (Ref.search tree p r) <-> exists q, tree !! j = Some q /\ Ref.within r p q.
Proof.
  unfold Ref.search. rewrite filter_In, in_seq. split.
  - intros [_ H]. destruct (tree !! j) as [q|]; [| discriminate].
    exists q. split; [reflexivity |]. now apply ref_withinb_iff.
  - intros (q & Hq & Hr). split.
    + apply lookup_lt_Some in Hq. lia.
    + rewrite Hq. now apply ref_withinb_iff.
Qed.

Lemma ref_within_self (r : Z) (p : vec3 Z) : 0 < r -> Ref.within r p p.
Proof.
  destruct p as [[x y] z]. unfold Ref.within, Ref.dist2. simpl. nia.
Qed.

Lemma ref_within_double (r : Z) (p q : vec3 Z) :
  Ref.within r p q -> Ref.within (2 * r) p q.
Proof.
  destruct p as [[x y] z], q as [[a b] c]. unfold Ref.within, Ref.dist2. simpl. nia.
Qed.

Lemma ref_open3d_laws : Open3dLaws Ref.libs Ref.within.
Proof.
  split.
  - intros tree p r. apply List.NoDup_filter, seq_NoDup.
  - apply ref_search_in.
  - intros r p Hr. apply ref_within_self. now apply Z.ltb_lt in Hr.
  - intros r p q H. simpl. rewrite ref_mul_of_Z. now apply ref_within_double.
  - apply ref_transform_identity.
Qed.

(** ** [get_matching_indices] *)

Section Matcher.
Context {L : Libs}.

(** The two nested loops append, source point after source point, what
    [pairs_of] lists. *)
Lemma get_matching_indices_groups source target trans r K :
  get_matching_indices source target trans r K =
  concat (map (pairs_of (points target) r K)
              (enumerate (map (o3d_transform trans) (points source)))).
Proof.
  unfold get_matching_indices.
  rewrite (fold_left_pointwise _
             (fun match_inds ip => match_inds ++ pairs_of (points target) r K ip)).
  - now rewrite fold_left_extend.
  - intros acc ip. unfold pairs_of. now rewrite fold_left_snoc.
Qed.

Lemma in_pairs_of tree r K ip y :
  In y (pairs_of tree r K ip) ->
  fst y = Z.of_nat (fst ip) /\
  exists j, snd y = Z.of_nat j /\ In j (search_radius_vector_3d tree (snd ip) r).
Proof.
  unfold pairs_of. intros H. apply in_map_iff in H as (j & <- & Hj). simpl.
  split; [reflexivity |]. exists j. split; [reflexivity |].
  destruct K; [now apply in_py_slice_to in Hj | assumption].
Qed.

Context {in_radius : F -> vec3 F -> vec3 F -> Prop}.
Context (HL : Open3dLaws L in_radius).

Lemma NoDup_pairs_of tree r K ip : List.NoDup (pairs_of tree r K ip).
Proof.
  unfold pairs_of. apply Finite.Injective_map_NoDup.
  - intros a b H. injection H as H. lia.
  - destruct K; [apply NoDup_py_slice_to |]; apply search_NoDup.
Qed.

Lemma in_get_matching_indices source target trans r (i j : nat) :
  In (Z.of_nat i, Z.of_nat j) (get_matching_indices source target trans r None) <->
  exists p q, points source !! i = Some p /\ points target !! j = Some q /\
              in_radius r (o3d_transform trans p) q.
Proof.
  rewrite get_matching_indices_groups, in_concat. split.
  - intros (ys & Hys & Hin). apply in_map_iff in Hys as ([i' p'] & <- & Hip).
    apply in_pairs_of in Hin as (Hi & j' & Hj & Hq). simpl in *.
    apply Nat2Z.inj in Hi, Hj. subst i' j'.
    apply in_enumerate in Hip. rewrite list_lookup_fmap in Hip.
    destruct (points source !! i) as [p|] eqn:Hp; [| discriminate].
    injection Hip as <-. apply search_in_radius in Hq as (q & Hq & Hr).
    now exists p, q.
  - intros (p & q & Hp & Hq & Hr).
    exists (pairs_of (points target) r None (i, o3d_transform trans p)). split.
    + apply in_map. apply in_enumerate. rewrite list_lookup_fmap, Hp. reflexivity.
    + unfold pairs_of. simpl.
      apply (in_map (fun j0 => (Z.of_nat i, Z.of_nat j0))).
      apply search_in_radius. now exists q.
Qed.

(** C5.  The result lists, source point after source point in array order,
    one pair (i, j) for each index j the radius query returns for the
    transformed source point i, cut to its first k results when a cap
    [K = Some k] (k >= 0) is given.  No pair occurs twice; every pair joins a
    source point with a target point in the radius of its image; without a cap
    every such pair is present; and a source point with no target point in the
    radius of its image contributes no pair.  [in_radius] is the neighbourhood
    of the query (Euclidean distance against the radius). *)
Theorem get_matching_indices_pairs source target trans r K :
  (forall k, K = Some k -> 0 <= k) ->
  let query p :=
    search_radius_vector_3d (points target) (o3d_transform trans p) r in
  let result := get_matching_indices source target trans r K in
  result =
    concat (map (fun ip =>
                   map (fun j => (Z.of_nat (fst ip), Z.of_nat j))
                       (match K with
                        | Some k => firstn (Z.to_nat k) (query (snd ip))
                        | None => query (snd ip)
                        end))
                (enumerate (points source)))
  /\ List.NoDup result
  /\ (forall i j, In (Z.of_nat i, Z.of_nat j) result ->
        exists p q, points source !! i = Some p /\ points target !! j = Some q /\
                    in_radius r (o3d_transform trans p) q)
  /\ (K = None ->
      forall i j p q, points source !! i = Some p -> points target !! j = Some q ->
        in_radius r (o3d_transform trans p) q ->
        In (Z.of_nat i, Z.of_nat j) result)
  /\ (forall i p, points source !! i = Some p ->
        (forall j q, points target !! j = Some q ->
                     ~ in_radius r (o3d_transform trans p) q) ->
        forall y, In y result -> fst y <> Z.of_nat i).
Proof.
  intros HK query result.
  assert (Hsound : forall i j, In (Z.of_nat i, Z.of_nat j) result ->
            exists p q, points source !! i = Some p /\ points target !! j = Some q /\
                        in_radius r (o3d_transform trans p) q).
  { intros i j. unfold result. rewrite get_matching_indices_groups, in_concat.
    intros (ys & Hys & Hin). apply in_map_iff in Hys as ([i' p'] & <- & Hip).
    apply in_pairs_of in Hin as (Hi & j' & Hj & Hq). simpl in *.
    apply Nat2Z.inj in Hi, Hj. subst i' j'.
    apply in_enumerate in Hip. rewrite list_lookup_fmap in Hip.
    destruct (points source !! i) as [p|] eqn:Hp; [| discriminate].
    injection Hip as <-. apply search_in_radius in Hq as (q & Hq & Hr).
    now exists p, q. }
  split; [| split; [| split; [exact Hsound | split]]].
  - unfold result. rewrite get_matching_indices_groups, enumerate_map, map_map.
    f_equal. apply map_ext. intros [i p]. unfold pairs_of, query. simpl.
    destruct K as [k|]; [| reflexivity].
    rewrite py_slice_to_nonneg by now apply HK. reflexivity.
  - unfold result. rewrite get_matching_indices_groups.
    apply (NoDup_groups _ _ 0).
    + intros ip. apply NoDup_pairs_of.
    + intros ip y Hy. now apply in_pairs_of in Hy as [Hy _].
  - intros -> i j p q Hp Hq Hr. apply in_get_matching_indices. now exists p, q.
  - intros i p Hp Hnone [a b] Hy Hfst. simpl in Hfst. subst a.
    assert (Hb : exists j, b = Z.of_nat j).
    { unfold result in Hy. rewrite get_matching_indices_groups, in_concat in Hy.
      destruct Hy as (ys & Hys & Hin). apply in_map_iff in Hys as (ip & <- & _).
      apply in_pairs_of in Hin as (_ & j & Hj & _). now exists j. }
    destruct Hb as [j ->]. apply Hsound in Hy as (p' & q & Hp' & Hq & Hr).
    rewrite Hp in Hp'. injection Hp' as <-. exact (Hnone j q Hq Hr).
Qed.

(** C6.  With no cap, the radius doubled returns at least as many pairs; a
    target without points yields no pair, whatever the source and the cap; and
    with the identity transform, the source points equal to the target points
    and a positive radius, every pair (i, i) is present. *)
Theorem get_matching_indices_monotone source target trans r :
  (length (get_matching_indices source target trans r None) <=
   length (get_matching_indices source target trans (f_mul (f_of_Z 2) r) None))%nat
  /\ (forall K, points target = [] ->
                get_matching_indices source target trans r K = [])
  /\ (points source = points target -> f_lt (f_of_Z 0) r = true ->
      forall i p, points source !! i = Some p ->
        In (Z.of_nat i, Z.of_nat i)
           (get_matching_indices source target np_identity4 r None)).
Proof.
  split; [| split].
  - rewrite !get_matching_indices_groups. apply length_concat_le.
    intros ip. unfold pairs_of. rewrite !length_map.
    apply NoDup_incl_length; [apply search_NoDup |].
    intros j Hj. apply search_in_radius in Hj as (q & Hq & Hr).
    apply search_in_radius. exists q. split; [assumption |].
    now apply in_radius_double.
  - intros K Hnil. rewrite get_matching_indices_groups, Hnil.
    assert (Hempty : forall p, search_radius_vector_3d [] p r = []).
    { intros p. destruct (search_radius_vector_3d [] p r) as [|j l] eqn:E;
        [reflexivity |].
      assert (Hin : In j (search_radius_vector_3d [] p r)) by (rewrite E; now left).
      apply search_in_radius in Hin as (q & Hq & _). discriminate. }
    induction (enumerate (map (o3d_transform trans) (points source))) as [|ip l IH];
      [reflexivity |].
    simpl. rewrite IH, app_nil_r. unfold pairs_of. rewrite Hempty.
    destruct K; [now rewrite py_slice_to_nil |]; reflexivity.
  - intros Heq Hr i p Hp. apply in_get_matching_indices.
    exists p, p. rewrite <- Heq. repeat split; try assumption.
    rewrite transform_identity. now apply in_radius_self.
Qed.

End Matcher.

(** The cap at work on the two demo clouds: the second source point has two
    neighbours and keeps the first. *)
Lemma get_matching_indices_pairs_witness :
  (forall k, Some 1 = Some k -> 0 <= k) /\
  get_matching_indices Demo.pcd_a Demo.pcd_b np_identity4 750 None
    = [(0, 0); (1, 1); (1, 2); (2, 3)] /\
  get_matching_indices Demo.pcd_a Demo.pcd_b np_identity4 750 (Some 1)
    = [(0, 0); (1, 1); (2, 3)] /\
  List.NoDup (get_matching_indices Demo.pcd_a Demo.pcd_b np_identity4 750 (Some 1)).
Proof.
  assert (H : forall k : Z, Some 1 = Some k -> 0 <= k)
    by (intros k Hk; injection Hk as <-; lia).
  split; [exact H |]. split; [vm_compute; reflexivity |].
  split; [vm_compute; reflexivity |].
  exact (proj1 (proj2 (get_matching_indices_pairs ref_open3d_laws
                         Demo.pcd_a Demo.pcd_b np_identity4 750 (Some 1) H))).
Defined.

Lemma get_matching_indices_monotone_witness :
  Open3dLaws Ref.libs Ref.within /\
  (length (get_matching_indices Demo.pcd_a Demo.pcd_b np_identity4 750%Z None) <=
   length (get_matching_indices Demo.pcd_a Demo.pcd_b np_identity4
             (@f_mul Ref.libs (@f_of_Z Ref.libs 2%Z) 750%Z) None))%nat /\
  get_matching_indices Demo.pcd_a Demo.pcd_empty np_identity4 750 (Some 1) = [] /\
  In (Z.of_nat 2, Z.of_nat 2)
     (get_matching_indices Demo.pcd_a Demo.pcd_a np_identity4 750 None).
Proof.
  split; [exact ref_open3d_laws |]. split; [| split].
  - exact (proj1 (get_matching_indices_monotone ref_open3d_laws
                    Demo.pcd_a Demo.pcd_b np_identity4 750)).
  - apply (proj1 (proj2 (get_matching_indices_monotone ref_open3d_laws
                           Demo.pcd_a Demo.pcd_empty np_identity4 750))).
    reflexivity.
  - apply (proj2 (proj2 (get_matching_indices_monotone ref_open3d_laws
                           Demo.pcd_a Demo.pcd_a np_identity4 750))
             eq_refl eq_refl 2%nat (2000, 1000, 0)).
    reflexivity.
Defined.

(** ** Integers below 2^53 are exact in float64, and int32 values survive the
       cast *)

Lemma f64_round_exact (z : Z) : Z.abs z < 2 ^ 53 -> f64_round z = z.
Proof.
  intros H. unfold f64_round.
  destruct (Z.leb_spec (Z.log2 (Z.abs z) - 52) 0) as [_ | Hlog]; [reflexivity |].
  exfalso. destruct (Z.eq_dec (Z.abs z) 0) as [E | E].
  - rewrite E in Hlog. simpl in Hlog. lia.
  - assert (Z.log2 (Z.abs z) < 53); [| lia].
    apply Z.log2_lt_pow2; lia.
Qed.

Lemma f64_add_exact (a b : Z) : Z.abs (a + b) < 2 ^ 53 -> f64_add a b = a + b.
Proof. apply f64_round_exact. Qed.

Lemma f64_of_int_exact (z : Z) : Z.abs z < 2 ^ 53 -> f64_of_int z = z.
Proof. apply f64_round_exact. Qed.

Lemma f64_sentinel (c : Z) : 0 <= c < 2 ^ 53 -> f64_add (f64_of_int 0) c = c.
Proof.
  intros H. change (f64_of_int 0) with 0. rewrite f64_add_exact; [lia |].
  rewrite Z.abs_eq; lia.
Qed.

Lemma f64_shift (i c n : Z) :
  0 <= i < n -> 0 <= c -> c + n < 2 ^ 53 -> f64_add (f64_of_int i) c = i + c.
Proof.
  intros Hi Hc Hn. rewrite f64_of_int_exact by (rewrite Z.abs_eq; lia).
  apply f64_add_exact. rewrite Z.abs_eq; lia.
Qed.

Lemma f64_add_count (c n : Z) :
  0 <= c -> 0 <= n -> c + n < 2 ^ 53 -> f64_add c (f64_of_int n) = c + n.
Proof.
  intros Hc Hn Hb. rewrite f64_of_int_exact by (rewrite Z.abs_eq; lia).
  apply f64_add_exact. rewrite Z.abs_eq; lia.
Qed.

Lemma to_int32_exact {L : Libs} (z : Z) : - 2 ^ 31 <= z < 2 ^ 31 -> to_int32 z = z.
Proof.
  intros H. unfold to_int32, in_int32.
  destruct (Z.leb_spec (- 2 ^ 31) z), (Z.ltb_spec z (2 ^ 31)); simpl; lia.
Qed.

(** ** [default_collate_pair_fn] *)

Section Collate.
Context {L : Libs}.

(** *** One pass of the loop *)

Lemma collate_iter_eq (batch_id : nat) (s : sample) (st : collate_state)
    (h : gmap loc (list pyelem)) :
  collate_iter batch_id s st h =
  match h !! s_matching_inds s with
  | None => (h, Raise SystemError)
  | Some v =>
      (extend_empty h (s_matching_inds s),
       map_result (iter_state batch_id s st)
         (np_array_add (match v with [] => [EInt 0; EInt 0] | _ => v end)
                       (curr_start_inds st)))
  end.
Proof.
  unfold collate_iter, extend_empty, bind, read_list, list_extend, lift_result, ret.
  destruct (h !! s_matching_inds s) as [v|] eqn:Hv; [| reflexivity].
  destruct v as [|e v].
  - simpl. rewrite Hv, lookup_insert_eq. reflexivity.
  - remember (np_array_add (e :: v) (curr_start_inds st)) as r eqn:Hr.
    simpl. rewrite Hv, <- Hr. destruct r; reflexivity.
Qed.

(** *** The store *)

Lemma lookup_extend_empty_ne (h : gmap loc (list pyelem)) (l l' : loc) :
  l' <> l -> extend_empty h l' !! l = h !! l.
Proof.
  intros Hne. unfold extend_empty.
  destruct (h !! l') as [[|e v]|]; try reflexivity.
  now rewrite lookup_insert_ne.
Qed.

Lemma lookup_extend_empty_nonempty (h : gmap loc (list pyelem)) (l l' : loc) :
  h !! l <> Some [] -> extend_empty h l' !! l = h !! l.
Proof.
  intros Hne. destruct (Nat.eq_dec l' l) as [-> | Hl].
  - unfold extend_empty. destruct (h !! l) as [[|e v]|] eqn:E;
      [congruence | exact E | exact E].
  - now apply lookup_extend_empty_ne.
Qed.

Lemma lookup_extend_empty_eq (h : gmap loc (list pyelem)) (l : loc) :
  h !! l = Some [] -> extend_empty h l !! l = Some [EInt 0; EInt 0].
Proof.
  intros H. unfold extend_empty. rewrite H. apply lookup_insert_eq.
Qed.

Lemma heap_after_nonempty samples (h : gmap loc (list pyelem)) (l : loc) :
  h !! l <> Some [] -> heap_after samples h !! l = h !! l.
Proof.
  revert h. induction samples as [|s rest IH]; intros h Hne; [reflexivity |].
  simpl. rewrite IH; rewrite lookup_extend_empty_nonempty; auto.
Qed.

Lemma heap_after_other samples (h : gmap loc (list pyelem)) (l : loc) :
  (forall s, In s samples -> s_matching_inds s <> l) ->
  heap_after samples h !! l = h !! l.
Proof.
  revert h. induction samples as [|s rest IH]; intros h Hl; [reflexivity |].
  simpl. rewrite IH.
  - apply lookup_extend_empty_ne. apply Hl. now left.
  - intros s' Hs'. apply Hl. now right.
Qed.

Lemma heap_after_empty samples (h : gmap loc (list pyelem)) (s : sample) :
  In s samples -> h !! s_matching_inds s = Some [] ->
  heap_after samples h !! s_matching_inds s = Some [EInt 0; EInt 0].
Proof.
  revert h. induction samples as [|s0 rest IH]; intros h Hin Hl; [destruct Hin |].
  simpl. destruct (Nat.eq_dec (s_matching_inds s0) (s_matching_inds s)) as [E | E].
  - rewrite heap_after_nonempty; rewrite E, lookup_extend_empty_eq; auto; discriminate.
  - destruct Hin as [-> | Hin]; [now contradict E |].
    apply IH; [assumption |]. now rewrite lookup_extend_empty_ne.
Qed.

Lemma collate_loop_heap samples : forall k st (h h' : gmap loc (list pyelem)) st',
  collate_loop k samples st h = (h', Ok st') -> h' = heap_after samples h.
Proof.
  induction samples as [|s rest IH]; intros k st h h' st' H.
  - simpl in H. unfold ret in H. now injection H as <- _.
  - simpl in H. apply bind_inv in H as (h1 & st1 & H1 & H2).
    rewrite collate_iter_eq in H1.
    destruct (h !! s_matching_inds s) as [v|]; [| discriminate].
    injection H1 as <- _. simpl. now apply IH in H2.
Qed.

Lemma default_collate_pair_fn_heap samples (h h' : gmap loc (list pyelem)) b :
  default_collate_pair_fn samples h = (h', Ok b) -> h' = heap_after samples h.
Proof.
  unfold default_collate_pair_fn. destruct samples as [|s0 rest]; [discriminate |].
  remember (s0 :: rest) as samples eqn:E. clear E. intros H.
  apply bind_inv in H as (h1 & st & Hloop & H).
  apply collate_loop_heap in Hloop. subst h1.
  apply bind_inv in H as (h2 & f0 & H0 & H).
  apply bind_inv in H as (h3 & f1 & H1 & H).
  unfold lift_result, ret in *. congruence.
Qed.

Lemma heap_rel_refl h : heap_rel h h.
Proof. intros l. now left. Qed.

Lemma heap_rel_extend_empty h0 h l' :
  heap_rel h0 h -> heap_rel h0 (extend_empty h l').
Proof.
  intros H l. destruct (Nat.eq_dec l' l) as [-> | Hne].
  - destruct (H l) as [E | [E0 E]].
    + destruct (h !! l) as [[|e v]|] eqn:Hl.
      * right. split; [congruence |]. now apply lookup_extend_empty_eq.
      * left. rewrite lookup_extend_empty_nonempty; congruence.
      * left. rewrite lookup_extend_empty_nonempty; congruence.
    + right. split; [assumption |].
      rewrite lookup_extend_empty_nonempty; congruence.
  - rewrite lookup_extend_empty_ne by assumption. apply H.
Qed.

(** *** The rows of one sample *)

Lemma count0_nonneg s : 0 <= count0 s.
Proof. unfold count0. lia. Qed.

Lemma count1_nonneg s : 0 <= count1 s.
Proof. unfold count1. lia. Qed.

Lemma total0_nonneg samples : 0 <= total0 samples.
Proof.
  induction samples as [|s rest IH]; simpl; [lia |].
  pose proof (count0_nonneg s). lia.
Qed.

Lemma total1_nonneg samples : 0 <= total1 samples.
Proof.
  induction samples as [|s rest IH]; simpl; [lia |].
  pose proof (count1_nonneg s). lia.
Qed.

Lemma total0_firstn_le samples k s :
  samples !! k = Some s -> total0 (firstn k samples) + count0 s <= total0 samples.
Proof.
  revert k. induction samples as [|s0 rest IH]; intros [|k] Hk; try discriminate.
  - injection Hk as ->. simpl. pose proof (total0_nonneg rest). lia.
  - simpl in *. specialize (IH _ Hk). lia.
Qed.

Lemma total1_firstn_le samples k s :
  samples !! k = Some s -> total1 (firstn k samples) + count1 s <= total1 samples.
Proof.
  revert k. induction samples as [|s0 rest IH]; intros [|k] Hk; try discriminate.
  - injection Hk as ->. simpl. pose proof (total1_nonneg rest). lia.
  - simpl in *. specialize (IH _ Hk). lia.
Qed.

Lemma np_array_add_pairs (v : list pyelem) (ps : list (Z * Z)) (c : Z * Z) e :
  all_pairs (e :: v) = Some ps ->
  np_array_add (e :: v) c =
  Ok (map (fun p => (f64_add (f64_of_int (fst p)) (fst c),
                     f64_add (f64_of_int (snd p)) (snd c))) ps).
Proof.
  intros H. unfold np_array_add. destruct e as [z | i j]; [discriminate |].
  now rewrite H.
Qed.

(** Whatever earlier passes did to the store, the pass over a well-formed
    sample finds its list and computes the expected rows. *)
Lemma rows_of_sample h0 h s (c : Z * Z) :
  heap_rel h0 h -> well_formed h0 s ->
  0 <= fst c -> 0 <= snd c ->
  fst c + count0 s < 2 ^ 53 -> snd c + count1 s < 2 ^ 53 ->
  exists v, h !! s_matching_inds s = Some v /\
    np_array_add (match v with [] => [EInt 0; EInt 0] | _ => v end) c =
    Ok (expected_rows h0 c s).
Proof.
  intros Hrel (ps & Hraw & Hvalid) Hc0 Hc1 Hb0 Hb1.
  pose proof (count0_nonneg s) as Hn0. pose proof (count1_nonneg s) as Hn1.
  unfold expected_rows. rewrite Hraw. unfold raw_pairs in Hraw.
  destruct (h0 !! s_matching_inds s) as [v0|] eqn:Hv0; [| discriminate].
  assert (Hsent : np_array_add [EInt 0; EInt 0] c = Ok [c]).
  { destruct c as [c0 c1]. simpl in *. unfold np_array_add. simpl.
    rewrite !f64_sentinel by lia. reflexivity. }
  destruct (Hrel (s_matching_inds s)) as [E | [E0 E]].
  - exists v0. split; [congruence |].
    destruct v0 as [|e v].
    + injection Hraw as <-. exact Hsent.
    + rewrite (np_array_add_pairs _ _ _ _ Hraw).
      destruct ps as [|p ps]; [destruct e; simpl in Hraw; [discriminate |];
        destruct (all_pairs v); discriminate |].
      f_equal. unfold shifted. apply map_ext_in. intros [i j] Hin.
      unfold valid_pairs in Hvalid. rewrite List.Forall_forall in Hvalid.
      destruct (Hvalid _ Hin) as [Hi Hj]. simpl in *.
      rewrite (f64_shift i _ (count0 s)), (f64_shift j _ (count1 s)) by lia.
      reflexivity.
  - exists [EInt 0; EInt 0]. split; [assumption |].
    assert (v0 = []) as -> by congruence. injection Hraw as <-. exact Hsent.
Qed.

Lemma expected_rows_bounds h0 s (c : Z * Z) p :
  well_formed h0 s -> In p (expected_rows h0 c s) ->
  fst c <= fst p <= fst c + count0 s /\ snd c <= snd p <= snd c + count1 s.
Proof.
  intros (ps & Hraw & Hvalid) Hin.
  pose proof (count0_nonneg s) as Hn0. pose proof (count1_nonneg s) as Hn1.
  unfold expected_rows in Hin. rewrite Hraw in Hin.
  destruct ps as [|q ps].
  - destruct Hin as [<- | []]. lia.
  - unfold shifted in Hin. apply in_map_iff in Hin as ([i j] & <- & Hq).
    unfold valid_pairs in Hvalid. rewrite List.Forall_forall in Hvalid.
    destruct (Hvalid _ Hq). simpl in *. lia.
Qed.

Lemma sample_rows_bounds h samples p :
  Forall (well_formed h) samples ->
  In p (concat (imap (sample_rows h samples) samples)) ->
  0 <= fst p <= total0 samples /\ 0 <= snd p <= total1 samples.
Proof.
  intros Hwf Hin. apply in_concat in Hin as (rows & Hrows & Hp).
  apply list_elem_of_In, elem_of_lookup_imap in Hrows as (k & s & -> & Hk).
  rewrite List.Forall_forall in Hwf.
  assert (Hs : well_formed h s).
  { apply Hwf. apply list_elem_of_In. eapply list_elem_of_lookup_2. exact Hk. }
  apply (expected_rows_bounds _ _ _ _ Hs) in Hp. simpl in Hp.
  pose proof (total0_firstn_le _ _ _ Hk). pose proof (total1_firstn_le _ _ _ Hk).
  pose proof (total0_nonneg (firstn k samples)).
  pose proof (total1_nonneg (firstn k samples)). lia.
Qed.

(** *** The loop, by induction on the samples still to come *)

Lemma collate_loop_spec h0 samples : forall k st h,
  heap_rel h0 h -> Forall (well_formed h0) samples ->
  0 <= fst (curr_start_inds st) -> 0 <= snd (curr_start_inds st) ->
  fst (curr_start_inds st) + total0 samples < 2 ^ 53 ->
  snd (curr_start_inds st) + total1 samples < 2 ^ 53 ->
  collate_loop k samples st h =
  (heap_after samples h, Ok (spec_state h0 k samples st)).
Proof.
  induction samples as [|s rest IH]; intros k st h Hrel Hwf Hc0 Hc1 Hb0 Hb1.
  - simpl. unfold ret, spec_state. simpl. rewrite !app_nil_r, !Z.add_0_r.
    destruct st as [? ? ? ? ? ? ? ? ? [c0 c1]]. reflexivity.
  - apply Forall_cons_iff in Hwf as [Hs Hrest]. simpl in Hb0, Hb1.
    pose proof (count0_nonneg s) as Hn0. pose proof (count1_nonneg s) as Hn1.
    pose proof (total0_nonneg rest) as Ht0. pose proof (total1_nonneg rest) as Ht1.
    destruct (rows_of_sample h0 h s (curr_start_inds st) Hrel Hs Hc0 Hc1)
      as (v & Hv & Hrows); [lia | lia |].
    cbn [collate_loop]. unfold bind. rewrite collate_iter_eq, Hv, Hrows.
    cbn [map_result].
    rewrite IH; try assumption.
    + f_equal. f_equal. unfold spec_state. simpl.
      rewrite !f64_add_count by lia.
      rewrite <- !app_assoc. simpl.
      repeat first
        [ reflexivity
        | lia
        | apply imap_ext; intros ? ? _; simpl
        | f_equal ].
      rewrite !Z.add_0_r. now destruct (curr_start_inds st).
    + now apply heap_rel_extend_empty.
    + simpl. rewrite f64_add_count by lia. lia.
    + simpl. rewrite f64_add_count by lia. lia.
    + simpl. rewrite !f64_add_count by lia. lia.
    + simpl. rewrite !f64_add_count by lia. lia.
Qed.

Lemma torch_cat_rows_same_width (ts : list (list row)) :
  same_width ts -> torch_cat_rows ts = Ok (concat ts).
Proof.
  intros H. unfold torch_cat_rows, same_width in *.
  destruct (concat ts) as [|r rs]; [reflexivity |].
  replace (forallb _ rs) with true; [reflexivity |].
  symmetry. apply forallb_forall. intros r' Hr'. apply Nat.eqb_eq.
  apply H; [now right | now left].
Qed.

Lemma length_tagged (f : sample -> list (vec3 F)) samples : forall k,
  Z.of_nat (length (concat (imap (fun i s => tag_coords (k + i) (f s)) samples))) =
  fold_right (fun s a => Z.of_nat (length (f s)) + a) 0 samples.
Proof.
  induction samples as [|s rest IH]; intros k; [reflexivity |].
  simpl. rewrite length_app, Nat2Z.inj_add. unfold tag_coords at 1.
  rewrite length_map. f_equal. rewrite <- (IH (S k)). do 3 f_equal.
  apply imap_ext. intros i x _. simpl. f_equal. lia.
Qed.

(** *** The whole function on well-formed input *)

Lemma default_collate_pair_fn_spec samples (h : gmap loc (list pyelem)) :
  samples <> [] ->
  Forall (well_formed h) samples ->
  same_width (map s_feats0 samples) -> same_width (map s_feats1 samples) ->
  total0 samples < 2 ^ 31 -> total1 samples < 2 ^ 31 ->
  default_collate_pair_fn samples h =
  (heap_after samples h,
   Ok {| pcd0 := map (map3 f64_to_f32) (concat (map s_xyz0 samples));
         pcd1 := map (map3 f64_to_f32) (concat (map s_xyz1 samples));
         sinput0_C :=
           concat (imap (fun k s => tag_coords k (s_coords0 s)) samples);
         sinput0_F :=
           map (fun r => map f64_to_f32 (row_to_list r))
               (concat (map s_feats0 samples));
         sinput1_C :=
           concat (imap (fun k s => tag_coords k (s_coords1 s)) samples);
         sinput1_F :=
           map (fun r => map f64_to_f32 (row_to_list r))
               (concat (map s_feats1 samples));
         correspondences := concat (imap (sample_rows h samples) samples);
         T_gt := map (map4 f64_to_f32) (concat (map rows4 (map s_trans samples)));
         len_batch := map (fun s => (count0 s, count1 s)) samples |}).
Proof.
  intros Hne Hwf Hw0 Hw1 Hb0 Hb1.
  destruct samples as [|s0 rest]; [congruence |].
  unfold default_collate_pair_fn. remember (s0 :: rest) as samples eqn:Hsamples.
  clear Hsamples Hne. unfold bind.
  rewrite (collate_loop_spec h samples 0 collate_init h (heap_rel_refl h) Hwf);
    simpl; try lia.
  unfold lift_result, ret.
  rewrite (torch_cat_rows_same_width _ Hw0), (torch_cat_rows_same_width _ Hw1).
  f_equal. f_equal. f_equal.
  replace (imap _ samples) with (imap (sample_rows h samples) samples)
    by (apply imap_ext; intros i s _; unfold sample_rows; now rewrite !Z.add_0_l).
  rewrite <- (map_id (concat (imap (sample_rows h samples) samples))) at 2.
  apply map_ext_in. intros [x y] Hp.
  apply (sample_rows_bounds _ _ _ Hwf) in Hp. simpl in *.
  rewrite !to_int32_exact by lia. reflexivity.
Qed.

(** *** The claims *)

(** C1 (as amended).  For a non-empty list of samples whose correspondence
    lists hold tuples of valid indices, whose feature rows have one width and
    whose point counts sum to less than 2^31 in each stream, the collator
    returns a batch whose correspondence rows are, sample after sample, the
    rows [sample_rows] of that sample: for a sample with a non-empty list, its
    raw pairs with the first column offset by the cloud-0 point counts of the
    samples before it and the second column by their cloud-1 point counts;
    for a sample with an empty list, the single row of these two offsets.
    [len_batch] records the pair of point counts of every sample in order,
    and the two tagged coordinate arrays have the total point counts as
    lengths. *)
Theorem collate_offsets samples (h : gmap loc (list pyelem)) :
  samples <> [] ->
  Forall (well_formed h) samples ->
  same_width (map s_feats0 samples) -> same_width (map s_feats1 samples) ->
  total0 samples < 2 ^ 31 -> total1 samples < 2 ^ 31 ->
  exists b h',
    default_collate_pair_fn samples h = (h', Ok b) /\
    correspondences b = concat (imap (sample_rows h samples) samples) /\
    (forall k s p ps,
        samples !! k = Some s -> raw_pairs h s = Some (p :: ps) ->
        sample_rows h samples k s =
        map (fun q => (fst q + total0 (firstn k samples),
                       snd q + total1 (firstn k samples))) (p :: ps)) /\
    (forall k s,
        samples !! k = Some s -> raw_pairs h s = Some [] ->
        sample_rows h samples k s =
        [(total0 (firstn k samples), total1 (firstn k samples))]) /\
    len_batch b = map (fun s => (count0 s, count1 s)) samples /\
    Z.of_nat (length (sinput0_C b)) = total0 samples /\
    Z.of_nat (length (sinput1_C b)) = total1 samples.
Proof.
  intros Hne Hwf Hw0 Hw1 Hb0 Hb1. eexists _, _. split.
  - now apply default_collate_pair_fn_spec.
  - simpl. repeat split.
    + intros k s p ps _ Hraw. unfold sample_rows, expected_rows. now rewrite Hraw.
    + intros k s _ Hraw. unfold sample_rows, expected_rows. now rewrite Hraw.
    + apply (length_tagged s_coords0 samples 0).
    + apply (length_tagged s_coords1 samples 0).
Qed.

(** C2.  On the same inputs, a sample whose correspondence list is empty
    contributes exactly one row, the pair (0, 0) offset by the point counts of
    the samples before it; and every sample contributes at least one row. *)
Theorem collate_empty_sentinel samples (h : gmap loc (list pyelem)) :
  samples <> [] ->
  Forall (well_formed h) samples ->
  same_width (map s_feats0 samples) -> same_width (map s_feats1 samples) ->
  total0 samples < 2 ^ 31 -> total1 samples < 2 ^ 31 ->
  exists b h',
    default_collate_pair_fn samples h = (h', Ok b) /\
    correspondences b = concat (imap (sample_rows h samples) samples) /\
    (forall k s,
        samples !! k = Some s -> h !! s_matching_inds s = Some [] ->
        sample_rows h samples k s =
        [(0 + total0 (firstn k samples), 0 + total1 (firstn k samples))]) /\
    (forall k s,
        samples !! k = Some s -> (1 <= length (sample_rows h samples k s))%nat).
Proof.
  intros Hne Hwf Hw0 Hw1 Hb0 Hb1. eexists _, _. split.
  - now apply default_collate_pair_fn_spec.
  - simpl. repeat split.
    + intros k s _ Hl. unfold sample_rows, expected_rows, raw_pairs. now rewrite Hl.
    + intros k s _. unfold sample_rows, expected_rows.
      destruct (raw_pairs h s) as [[|p ps]|]; simpl; lia.
Qed.

(** C10.  When the collator returns, the store differs from the one it was
    given at the empty lists of the samples only: each of them has been
    extended with two zeros, every list that was not empty holds what it
    held, and so does every list that belongs to no sample.  (The arrays of a
    sample are values here; the function only reads them.) *)
Theorem collate_extends_empty_lists samples (h h' : gmap loc (list pyelem)) b :
  default_collate_pair_fn samples h = (h', Ok b) ->
  (forall s, In s samples -> h !! s_matching_inds s = Some [] ->
             h' !! s_matching_inds s = Some ([] ++ [EInt 0; EInt 0])) /\
  (forall l, h !! l <> Some [] -> h' !! l = h !! l) /\
  (forall l, (forall s, In s samples -> s_matching_inds s <> l) ->
             h' !! l = h !! l).
Proof.
  intros H. apply default_collate_pair_fn_heap in H. subst h'. repeat split.
  - intros s Hs Hl. now apply heap_after_empty.
  - intros l Hl. now apply heap_after_nonempty.
  - intros l Hl. now apply heap_after_other.
Qed.

End Collate.

(** *** The demo batch *)

Lemma demo_well_formed : Forall (well_formed Demo.store) Demo.samples.
Proof.
  repeat constructor.
  - exists [(0, 0); (1, 1)]. split; [vm_compute; reflexivity |].
    repeat constructor; vm_compute; congruence.
  - exists []. split; [vm_compute; reflexivity | constructor].
  - exists [(1, 0)]. split; [vm_compute; reflexivity |].
    repeat constructor; vm_compute; congruence.
Qed.

Lemma demo_same_width (f : @sample Ref.libs -> list (@row Ref.libs)) :
  (forall s, In s Demo.samples ->
             Forall (fun r => @extra Ref.libs r = [500]) (f s)) ->
  same_width (map f Demo.samples).
Proof.
  intros H r r' Hr Hr'.
  assert (Hall : forall x, In x (concat (map f Demo.samples)) -> extra x = [500]).
  { intros x Hx. apply in_concat in Hx as (rows & Hrows & Hx).
    apply in_map_iff in Hrows as (s & <- & Hs).
    specialize (H s Hs). rewrite List.Forall_forall in H. now apply H. }
  unfold row_width. now rewrite (Hall r Hr), (Hall r' Hr').
Qed.

Lemma demo_same_width0 : same_width (map s_feats0 Demo.samples).
Proof.
  apply demo_same_width. intros s [<- | [<- | [<- | []]]]; repeat constructor.
Qed.

Lemma demo_same_width1 : same_width (map s_feats1 Demo.samples).
Proof.
  apply demo_same_width. intros s [<- | [<- | [<- | []]]]; repeat constructor.
Qed.

Lemma demo_nonempty : Demo.samples <> [].
Proof. discriminate. Qed.

Lemma demo_total0 : total0 Demo.samples < 2 ^ 31.
Proof. vm_compute. reflexivity. Qed.

Lemma demo_total1 : total1 Demo.samples < 2 ^ 31.
Proof. vm_compute. reflexivity. Qed.

(** Three samples with 2, 1, 2 and 3, 1, 2 points: the pairs of the third
    are offset by (3, 4), and the second, which has none, gives the row
    (2, 3). *)
Lemma collate_offsets_witness :
  exists b h',
    default_collate_pair_fn Demo.samples Demo.store = (h', Ok b) /\
    correspondences b = [(0, 0); (1, 1); (2, 3); (4, 4)] /\
    len_batch b = [(2, 3); (1, 1); (2, 2)].
Proof.
  destruct (collate_offsets Demo.samples Demo.store demo_nonempty demo_well_formed
              demo_same_width0 demo_same_width1 demo_total0 demo_total1)
    as (b & h' & Hrun & Hrows & _ & _ & Hlen & _).
  exists b, h'. split; [exact Hrun |]. split.
  - rewrite Hrows. vm_compute. reflexivity.
  - rewrite Hlen. vm_compute. reflexivity.
Defined.

Lemma collate_empty_sentinel_witness :
  exists b h',
    default_collate_pair_fn Demo.samples Demo.store = (h', Ok b) /\
    Demo.store !! s_matching_inds Demo.sample_b = Some [] /\
    sample_rows Demo.store Demo.samples 1 Demo.sample_b = [(2, 3)] /\
    correspondences b = [(0, 0); (1, 1); (2, 3); (4, 4)].
Proof.
  destruct (collate_empty_sentinel Demo.samples Demo.store demo_nonempty
              demo_well_formed demo_same_width0 demo_same_width1
              demo_total0 demo_total1)
    as (b & h' & Hrun & Hrows & Hempty & _).
  assert (Hb : Demo.store !! s_matching_inds Demo.sample_b = Some [])
    by (vm_compute; reflexivity).
  exists b, h'. split; [exact Hrun |]. split; [exact Hb |]. split.
  - rewrite (Hempty 1%nat Demo.sample_b eq_refl Hb). vm_compute. reflexivity.
  - rewrite Hrows. vm_compute. reflexivity.
Defined.

Lemma collate_extends_empty_lists_witness :
  Demo.store !! 1%nat = Some [] /\
  heap_after Demo.samples Demo.store !! 1%nat = Some [EInt 0; EInt 0] /\
  heap_after Demo.samples Demo.store !! 0%nat = Some [EPair 0 0; EPair 1 1] /\
  heap_after Demo.samples Demo.store !! 5%nat = None.
Proof.
  pose proof (default_collate_pair_fn_spec Demo.samples Demo.store demo_nonempty
                demo_well_formed demo_same_width0 demo_same_width1
                demo_total0 demo_total1) as Hrun.
  destruct (collate_extends_empty_lists _ _ _ _ Hrun) as (Hempty & Hkept & Hother).
  assert (Hb : Demo.store !! 1%nat = Some []) by (vm_compute; reflexivity).
  split; [exact Hb |]. split; [| split].
  - apply (Hempty Demo.sample_b); [right; left; reflexivity | exact Hb].
  - rewrite Hkept; vm_compute; [reflexivity | discriminate].
  - rewrite Hother; [vm_compute; reflexivity |].
    intros s [<- | [<- | [<- | []]]]; discriminate.
Defined.

(** C1 as it was stated fails on a sample without correspondences: its raw
    pairs, offset, are no row at all, and the batch holds the row (0, 0). *)
Lemma collate_empty_list_counterexample :
  exists b h',
    default_collate_pair_fn [Demo.sample_b] Demo.store = (h', Ok b) /\
    raw_pairs Demo.store Demo.sample_b = Some [] /\
    shifted (0, 0) [] = [] /\
    correspondences b = [(0, 0)].
Proof.
  assert (Hraw : raw_pairs Demo.store Demo.sample_b = Some [])
    by (vm_compute; reflexivity).
  eexists _, _. split; [| split; [exact Hraw | split; [reflexivity |]]].
  - apply default_collate_pair_fn_spec.
    + discriminate.
    + constructor; [| constructor]. exists []. split; [exact Hraw | constructor].
    + intros r r' [<- | []] [<- | []]. reflexivity.
    + intros r r' [<- | []] [<- | []]. reflexivity.
    + vm_compute. reflexivity.
    + vm_compute. reflexivity.
  - vm_compute. reflexivity.
Qed.

(** ** Runs on the demo inputs *)

(** Closes an equation between closed terms by evaluating both sides.  (The
    types of worlds and samples mention the instance of [Libs], which
    [vm_compute] on the whole goal would normalise as well.) *)
Ltac by_vm :=
  match goal with
  | |- @eq ?T ?l ?r => exact (@eq_refl T r <: @eq T l r)
  end.

Example init_train_demo :
  init "train" None true true false (Some Demo.config) Demo.world
  = (Demo.world_built, Ok Demo.dataset).
Proof. by_vm. Qed.

Example getitem_demo :
  getitem Demo.dataset 0 Demo.world_built = (Demo.world_item, Ok Demo.item).
Proof. by_vm. Qed.

Example getitem_last_demo :
  getitem Demo.dataset (-1) Demo.world_built = (Demo.world_item, Ok Demo.item).
Proof. by_vm. Qed.

Example getitem_out_of_range_demo :
  getitem Demo.dataset 1 Demo.world_built = (Demo.world_built, Raise IndexError).
Proof. by_vm. Qed.

(** ** The size cap of the quantization *)

Section Subsample.
Context {L : Libs}.

Lemma subsample_under (sample_pts : Z) (sel : list nat) (w : World) :
  Z.of_nat (length sel) <= sample_pts -> subsample sample_pts sel w = (w, Ok sel).
Proof.
  intros H. unfold subsample.
  destruct (Z.ltb_spec sample_pts (Z.of_nat (length sel))); [lia | reflexivity].
Qed.

Lemma subsample_over (sample_pts : Z) (sel : list nat) (w : World) :
  0 <= sample_pts < Z.of_nat (length sel) ->
  subsample sample_pts sel w =
  (set_np_rng (snd (np_permutation (np_seed 42) (length sel)))
              (set_np_rng (np_seed 42) w),
   np_take sel (firstn (Z.to_nat sample_pts)
                       (fst (np_permutation (np_seed 42) (length sel))))).
Proof.
  intros H. unfold subsample.
  destruct (Z.ltb_spec sample_pts (Z.of_nat (length sel))); [| lia].
  unfold bind, np_random_seed, np_random_choice.
  destruct (Z.ltb_spec sample_pts 0); [lia |].
  destruct (Z.ltb_spec (Z.of_nat (length sel)) sample_pts); [lia |].
  unfold bind, lift_result. cbn [orb]. cbv beta. cbn [np_rng set_np_rng].
  destruct (np_permutation (np_seed 42) (length sel)) as [p g]. reflexivity.
Qed.

Lemma subsample_negative (sample_pts : Z) (sel : list nat) (w : World) :
  sample_pts < 0 -> sample_pts < Z.of_nat (length sel) ->
  subsample sample_pts sel w = (set_np_rng (np_seed 42) w, Raise ValueError).
Proof.
  intros H H'. unfold subsample.
  destruct (Z.ltb_spec sample_pts (Z.of_nat (length sel))); [| lia].
  unfold bind, np_random_seed, np_random_choice.
  destruct (Z.ltb_spec sample_pts 0); [| lia]. reflexivity.
Qed.

(** C4.  Two executions of the subsampling step on the same candidate indices
    give the same result whatever the two worlds, hence whatever the state of
    the generator before: when the step draws, the generator it leaves is the
    same too, and the result is read off the permutation drawn from the
    generator seeded with 42, which depends on the number of candidates
    alone; so the caps of the two clouds of an item draw from one seed. *)
Theorem subsample_deterministic (sample_pts : Z) (sel : list nat) (w1 w2 : World) :
  snd (subsample sample_pts sel w1) = snd (subsample sample_pts sel w2) /\
  (sample_pts < Z.of_nat (length sel) ->
   np_rng (fst (subsample sample_pts sel w1)) =
   np_rng (fst (subsample sample_pts sel w2))) /\
  (0 <= sample_pts < Z.of_nat (length sel) ->
   snd (subsample sample_pts sel w1) =
   np_take sel (firstn (Z.to_nat sample_pts)
                       (fst (np_permutation (np_seed 42) (length sel))))).
Proof.
  destruct (Z.lt_ge_cases sample_pts (Z.of_nat (length sel))) as [Hlt | Hge].
  - destruct (Z.lt_ge_cases sample_pts 0) as [Hneg | Hpos].
    + rewrite !subsample_negative by assumption.
      split; [reflexivity | split; [reflexivity | lia]].
    + rewrite !subsample_over by lia.
      split; [reflexivity | split; reflexivity].
  - rewrite !subsample_under by lia.
    split; [reflexivity | split; lia].
Qed.

Lemma firstn_perm_spec (p : list nat) (n k : nat) :
  Permutation p (seq 0 n) -> (k <= n)%nat ->
  length (firstn k p) = k /\ List.NoDup (firstn k p) /\
  forall i, In i (firstn k p) -> (i < n)%nat.
Proof.
  intros Hp Hk. split; [| split].
  - rewrite length_firstn, (Permutation_length Hp), length_seq. lia.
  - apply NoDup_firstn. eapply Permutation_NoDup; [symmetry; exact Hp |].
    apply seq_NoDup.
  - intros i Hi. apply in_firstn_in in Hi.
    eapply Permutation_in in Hi; [| exact Hp]. apply in_seq in Hi. lia.
Qed.

(** C3.  Of the subsampling step, for any cap [sample_pts >= 0] and candidate
    indices without repetition that are all below [n]: with more candidates
    than the cap it returns exactly [sample_pts] indices, without repetition,
    all of them candidates and so below [n]; otherwise it returns the
    candidates as they are and leaves the world alone.  And of the
    quantization of the builder, whose cap is 40000: on a cloud with a point
    it returns the voxel coordinates and a selection that has no repetition
    and holds positions of the cloud only; the selection counts 40000 of the
    candidates [sparse_quantize] gave when these are more than 40000, and is
    the candidates otherwise. *)
Theorem subsample_exact (HN : NumpyLaws L) (HQ : QuantizeLaws L) (w : World) :
  (forall (sample_pts : Z) (sel : list nat) (n : nat),
      0 <= sample_pts -> List.NoDup sel -> (forall i, In i sel -> (i < n)%nat) ->
      (sample_pts < Z.of_nat (length sel) ->
       exists sel' w',
         subsample sample_pts sel w = (w', Ok sel') /\
         Z.of_nat (length sel') = sample_pts /\
         List.NoDup sel' /\ incl sel' sel /\
         (forall i, In i sel' -> (i < n)%nat)) /\
      (Z.of_nat (length sel) <= sample_pts ->
       subsample sample_pts sel w = (w, Ok sel))) /\
  (forall (self : Dataset) (xyz : list row),
      xyz <> [] ->
      exists xyz_ sel w',
        select_voxels self xyz w = (w', Ok (xyz_, sel)) /\
        voxel_coords xyz (self_voxel_size self) = Ok xyz_ /\
        (40000 < Z.of_nat (length (sparse_quantize xyz_)) ->
         Z.of_nat (length sel) = 40000 /\ incl sel (sparse_quantize xyz_)) /\
        (Z.of_nat (length (sparse_quantize xyz_)) <= 40000 ->
         sel = sparse_quantize xyz_ /\ w' = w) /\
        List.NoDup sel /\
        (forall i, In i sel -> (i < length xyz)%nat)).
Proof.
  assert (Hsub : forall (sample_pts : Z) (sel : list nat) (n : nat),
      0 <= sample_pts -> List.NoDup sel -> (forall i, In i sel -> (i < n)%nat) ->
      sample_pts < Z.of_nat (length sel) ->
       exists sel' w',
         subsample sample_pts sel w = (w', Ok sel') /\
         Z.of_nat (length sel') = sample_pts /\
         List.NoDup sel' /\ incl sel' sel /\
         (forall i, In i sel' -> (i < n)%nat)).
  { intros sample_pts sel n Hpos Hnd Hbound Hlt.
    rewrite subsample_over by lia.
    destruct (firstn_perm_spec (fst (np_permutation (np_seed 42) (length sel)))
                (length sel) (Z.to_nat sample_pts)) as (Hlen & Hnd' & Hlt');
      [apply permutation_range | lia |].
    destruct (np_take_spec sel _ Hlt') as (sel' & Htake & HF).
    exists sel', (set_np_rng (snd (np_permutation (np_seed 42) (length sel)))
                             (set_np_rng (np_seed 42) w)).
    rewrite Htake. split; [reflexivity |].
    assert (Hincl : incl sel' sel).
    { intros x Hx. destruct (Forall2_lookup_In _ _ _ _ HF Hx) as (i & _ & Hi).
      apply list_elem_of_In. eapply list_elem_of_lookup_2. exact Hi. }
    split; [| split; [| split]].
    - rewrite (Forall2_lookup_length _ _ _ HF), Hlen. lia.
    - exact (Forall2_lookup_NoDup _ _ _ Hnd Hnd' HF).
    - exact Hincl.
    - intros i Hi. apply Hbound, Hincl, Hi. }
  split.
  - intros sample_pts sel n Hpos Hnd Hbound. split.
    + now apply Hsub.
    + apply subsample_under.
  - intros self xyz Hne. unfold select_voxels, voxel_coords.
    destruct xyz as [|r0 xyz]; [congruence |].
    remember (r0 :: xyz) as cloud eqn:Hcloud.
    set (rounded := map (fun p => map3 (fun x => np_round (f_div x (self_voxel_size self)))
                                     (pos p)) cloud).
    assert (Hr : rounded = map3 (fun x => np_round (f_div x (self_voxel_size self))) (pos r0)
                           :: tl rounded) by (unfold rounded; now rewrite Hcloud).
    rewrite Hr. rewrite <- Hr. cbv zeta.
    set (xyz_ := map (fun p => zip3 f_sub p _) rounded).
    assert (Hlen : length xyz_ = length cloud)
      by (unfold xyz_, rounded; now rewrite !length_map).
    pose proof (quantize_NoDup xyz_) as Hnd.
    assert (Hbound : forall i, In i (sparse_quantize xyz_) -> (i < length cloud)%nat)
      by (intros i Hi; rewrite <- Hlen; now apply quantize_bound).
    unfold bind, lift_result.
    destruct (Z.lt_ge_cases 40000 (Z.of_nat (length (sparse_quantize xyz_))))
      as [Hlt | Hge].
    + destruct (Hsub 40000 (sparse_quantize xyz_) (length cloud))
        as (sel' & w' & Hs & Hl & Hnd' & Hincl & Hb'); try assumption; [lia |].
      exists xyz_, sel', w'. rewrite Hs. unfold ret.
      repeat split; try assumption; lia.
    + exists xyz_, (sparse_quantize xyz_), w.
      rewrite subsample_under by lia. unfold ret.
      repeat split; try assumption; lia.
Qed.

End Subsample.

(** The scenario of the spec: a cap of 10 on 1000 candidates. *)
Lemma subsample_exact_witness :
  NumpyLaws Ref.libs /\ QuantizeLaws Ref.libs /\
  snd (subsample 10 (seq 0 1000) Demo.world)
    = Ok [781; 782; 783; 784; 785; 786; 787; 788; 789; 790]%nat /\
  exists sel' w',
    subsample 10 (seq 0 1000) Demo.world = (w', Ok sel') /\
    Z.of_nat (length sel') = 10 /\
    List.NoDup sel' /\ incl sel' (seq 0 1000) /\
    (forall i, In i sel' -> (i < 1000)%nat).
Proof.
  split; [exact ref_numpy_laws |]. split; [exact ref_quantize_laws |].
  split; [vm_compute; reflexivity |].
  refine (proj1 (proj1 (subsample_exact ref_numpy_laws ref_quantize_laws Demo.world)
                   10 (seq 0 1000) 1000%nat _ _ _) _).
  - lia.
  - apply seq_NoDup.
  - intros i Hi. apply in_seq in Hi. lia.
  - rewrite length_seq. lia.
Defined.

(** ** The item builder *)

Section Getitem.
Context {L : Libs}.

Lemma getitem_inv self idx w w' s :
  getitem self idx w = (w', Ok s) ->
  exists raw0 raw1 w1 msvs a0 a1 w2 trans xyz0 xyz1 w3,
    load_clouds self idx w = (w1, Ok (raw0, raw1)) /\
    scale_clouds self raw0 raw1 w1 = (w2, Ok (msvs, a0, a1)) /\
    rotate_clouds self a0 a1 w2 = (w3, Ok (trans, xyz0, xyz1)) /\
    build_sample self msvs trans (repeat ones3 (length raw0))
      (repeat ones3 (length raw1)) xyz0 xyz1 w3 = (w', Ok s).
Proof.
  unfold getitem. intros H.
  apply bind_inv in H as (w1 & [raw0 raw1] & H1 & H).
  apply bind_inv in H as (w2 & [[msvs a0] a1] & H2 & H).
  apply bind_inv in H as (w3 & [[trans xyz0] xyz1] & H3 & H).
  now exists raw0, raw1, w1, msvs, a0, a1, w2, trans, xyz0, xyz1, w3.
Qed.

Lemma build_sample_inv self msvs trans color0 color1 xyz0 xyz1 w w' s :
  build_sample self msvs trans color0 color1 xyz0 xyz1 w = (w', Ok s) ->
  exists xyz0_ sel0 w1 xyz1_ sel1 w2,
    select_voxels self xyz0 w = (w1, Ok (xyz0_, sel0)) /\
    select_voxels self xyz1 w1 = (w2, Ok (xyz1_, sel1)) /\
    np_take (map pos xyz0) sel0 = Ok (s_xyz0 s) /\
    np_take (map pos xyz1) sel1 = Ok (s_xyz1 s) /\
    np_take xyz0 sel0 = Ok (s_feats0 s) /\
    np_take xyz1 sel1 = Ok (s_feats1 s) /\
    s_trans s = trans /\
    (self_transform self = None ->
     np_take xyz0_ sel0 = Ok (s_coords0 s) /\
     np_take xyz1_ sel1 = Ok (s_coords1 s)).
Proof.
  unfold build_sample. intros H.
  apply bind_inv in H as (w1 & [xyz0_ sel0] & H1 & H).
  apply bind_inv in H as (w2 & [xyz1_ sel1] & H2 & H).
  apply bind_inv in H as (? & c0 & Hc0 & H). apply lift_result_inv in Hc0 as [Hc0 ->].
  apply bind_inv in H as (? & c1 & Hc1 & H). apply lift_result_inv in Hc1 as [Hc1 ->].
  apply bind_inv in H as (? & p0 & Hp0 & H). apply lift_result_inv in Hp0 as [Hp0 ->].
  apply bind_inv in H as (? & p1 & Hp1 & H). apply lift_result_inv in Hp1 as [Hp1 ->].
  apply bind_inv in H as (w3 & matches & Hm & H).
  apply bind_inv in H as (? & coords0 & Hk0 & H). apply lift_result_inv in Hk0 as [Hk0 ->].
  apply bind_inv in H as (? & coords1 & Hk1 & H). apply lift_result_inv in Hk1 as [Hk1 ->].
  apply bind_inv in H as (w4 & [[[cj0 fj0] cj1] fj1] & Hj & H).
  apply bind_inv in H as (? & feats0 & Hf0 & H). apply lift_result_inv in Hf0 as [Hf0 ->].
  apply bind_inv in H as (? & feats1 & Hf1 & H). apply lift_result_inv in Hf1 as [Hf1 ->].
  apply ret_inv in H as [-> ->].
  exists xyz0_, sel0, w1, xyz1_, sel1, w2. simpl.
  repeat (split; [assumption |]). split; [reflexivity |].
  intros Hnone. rewrite Hnone in Hj. apply ret_inv in Hj as [Hj _].
  injection Hj as -> _ -> _. now split.
Qed.

Lemma length_apply_transform pts T : length (apply_transform pts T) = length pts.
Proof.
  unfold apply_transform.
  destruct T as [[[[[[a b] c] x] [[[d e] f] y]] [[[g h] i] z]] r3].
  apply length_map.
Qed.

Lemma map_pos_assign_pos (xyz : list row) (new : list (vec3 F)) :
  length new = length xyz -> map pos (assign_pos xyz new) = new.
Proof.
  unfold assign_pos. revert new.
  induction xyz as [|r xyz IH]; intros [|p new] H;
    try discriminate; [reflexivity |].
  simpl. f_equal. apply IH. simpl in H. lia.
Qed.

Lemma rotate_clouds_inv self a0 a1 w w' trans xyz0 xyz1 :
  rotate_clouds self a0 a1 w = (w', Ok (trans, xyz0, xyz1)) ->
  if self_random_rotation self then
    exists T0 g1 T1 g2 T0_inv,
      sample_random_trans (map pos a0) (randg w) (self_rotation_range self)
        = (T0, g1) /\
      sample_random_trans (map pos a1) g1 (self_rotation_range self)
        = (T1, g2) /\
      np_linalg_inv T0 = Some T0_inv /\
      trans = np_matmul4 T1 T0_inv /\
      xyz0 = assign_pos a0 (apply_transform (map pos a0) T0) /\
      xyz1 = assign_pos a1 (apply_transform (map pos a1) T1)
  else trans = np_identity4 /\ xyz0 = a0 /\ xyz1 = a1 /\ w' = w.
Proof.
  unfold rotate_clouds. destruct (self_random_rotation self).
  - unfold bind, with_randg, lift_result, ret.
    destruct (sample_random_trans (map pos a0) (randg w) _) as [T0 g1] eqn:E0.
    cbn [randg set_randg].
    destruct (sample_random_trans (map pos a1) g1 _) as [T1 g2] eqn:E1.
    destruct (np_linalg_inv T0) as [T0_inv|] eqn:Ei; [| discriminate].
    intros H. injection H as _ <- <- <-.
    now exists T0, g1, T1, g2, T0_inv.
  - unfold ret. intros H. injection H as <- <- <- <-. now repeat split.
Qed.

(** C7.  Of an item [s] the builder returned, with [a0] and [a1] the two
    clouds as loaded and scaled: when random rotation is on, there are the
    pose [T0] drawn for [a0] and the pose [T1] drawn next, from the same
    generator of the dataset, for [a1], [T0] has an inverse, the transform
    of the item is the product [T1 @ inv(T0)], and the points of the item
    are points of [a0] moved by [T0] and points of [a1] moved by [T1]; when
    it is off the transform is the identity of size 4 and the points of the
    item are points of [a0] and of [a1]. *)
Theorem getitem_relative_transform self idx w w' s :
  getitem self idx w = (w', Ok s) ->
  exists raw0 raw1 w1 msvs a0 a1 w2,
    load_clouds self idx w = (w1, Ok (raw0, raw1)) /\
    scale_clouds self raw0 raw1 w1 = (w2, Ok (msvs, a0, a1)) /\
    if self_random_rotation self then
      exists T0 g1 T1 g2 T0_inv sel0 sel1,
        sample_random_trans (map pos a0) (randg w2) (self_rotation_range self)
          = (T0, g1) /\
        sample_random_trans (map pos a1) g1 (self_rotation_range self)
          = (T1, g2) /\
        np_linalg_inv T0 = Some T0_inv /\
        s_trans s = np_matmul4 T1 T0_inv /\
        np_take (apply_transform (map pos a0) T0) sel0 = Ok (s_xyz0 s) /\
        np_take (apply_transform (map pos a1) T1) sel1 = Ok (s_xyz1 s)
    else
      s_trans s = np_identity4 /\
      exists sel0 sel1,
        np_take (map pos a0) sel0 = Ok (s_xyz0 s) /\
        np_take (map pos a1) sel1 = Ok (s_xyz1 s).
Proof.
  intros H.
  apply getitem_inv in H
    as (raw0 & raw1 & w1 & msvs & a0 & a1 & w2 & trans & xyz0 & xyz1 & w3
        & Hload & Hscale & Hrot & Hbuild).
  apply build_sample_inv in Hbuild
    as (xyz0_ & sel0 & w4 & xyz1_ & sel1 & w5 & _ & _ & Hp0 & Hp1 & _ & _ & Ht & _).
  exists raw0, raw1, w1, msvs, a0, a1, w2.
  split; [assumption |]. split; [assumption |].
  apply rotate_clouds_inv in Hrot. destruct (self_random_rotation self).
  - destruct Hrot as (T0 & g1 & T1 & g2 & T0_inv & E0 & E1 & Ei & -> & -> & ->).
    rewrite map_pos_assign_pos in Hp0, Hp1
      by (now rewrite length_apply_transform, length_map).
    now exists T0, g1, T1, g2, T0_inv, sel0, sel1.
  - destruct Hrot as (-> & -> & -> & ->). split; [assumption |].
    now exists sel0, sel1.
Qed.

Lemma build_sample_feats self t msvs trans color0 color1 xyz0 xyz1 w :
  map_result feats_of
    (snd (build_sample (set_transform (Some t) self) msvs trans color0 color1
            xyz0 xyz1 w)) =
  map_result feats_of
    (snd (build_sample (set_transform None self) msvs trans color0 color1
            xyz0 xyz1 w)).
Proof.
  unfold build_sample.
  change (select_voxels (set_transform (Some t) self))
    with (select_voxels (set_transform None self)).
  apply bind_agree. intros [xyz0_ sel0] w1.
  apply bind_agree. intros [xyz1_ sel1] w2.
  apply bind_agree. intros c0 w3.
  apply bind_agree. intros c1 w4.
  apply bind_agree. intros p0 w5.
  apply bind_agree. intros p1 w6.
  apply bind_agree. intros matches w7.
  apply bind_agree. intros k0 w8.
  apply bind_agree. intros k1 w9.
  cbn [self_transform set_transform].
  unfold bind, call_transform, lift_result, ret.
  destruct (t k0 _ _) as [[cj0 fj0] [pg ng]].
  cbn [py_rng np_rng set_py_rng set_np_rng].
  destruct (t k1 _ _) as [[cj1 fj1] [pg' ng']].
  destruct (np_take xyz0 sel0) as [f0 | e]; [| reflexivity].
  destruct (np_take xyz1 sel1) as [f1 | e]; reflexivity.
Qed.

(** C8.  The features of an item do not depend on the transform the dataset
    was given: with any transform [t] (the jitter of the loader is one) the
    builder ends as it does with none, with the same two feature arrays or
    the same exception.  And the features of an item [s] it returned are the
    rows of the two clouds, as scaled and rotated, at the selected indices
    [sel0] and [sel1]: [xyz0[sel0]] and [xyz1[sel1]], all columns. *)
Theorem getitem_features self idx w :
  (forall t,
      map_result feats_of (snd (getitem (set_transform (Some t) self) idx w)) =
      map_result feats_of (snd (getitem (set_transform None self) idx w))) /\
  (forall w' s,
      getitem self idx w = (w', Ok s) ->
      exists raw0 raw1 w1 msvs a0 a1 w2 trans xyz0 xyz1 w3
             xyz0_ sel0 w4 xyz1_ sel1 w5,
        load_clouds self idx w = (w1, Ok (raw0, raw1)) /\
        scale_clouds self raw0 raw1 w1 = (w2, Ok (msvs, a0, a1)) /\
        rotate_clouds self a0 a1 w2 = (w3, Ok (trans, xyz0, xyz1)) /\
        select_voxels self xyz0 w3 = (w4, Ok (xyz0_, sel0)) /\
        select_voxels self xyz1 w4 = (w5, Ok (xyz1_, sel1)) /\
        np_take xyz0 sel0 = Ok (s_feats0 s) /\
        np_take xyz1 sel1 = Ok (s_feats1 s)).
Proof.
  split.
  - intros t. unfold getitem.
    change (load_clouds (set_transform (Some t) self))
      with (load_clouds (set_transform None self)).
    change (scale_clouds (set_transform (Some t) self))
      with (scale_clouds (set_transform None self)).
    change (rotate_clouds (set_transform (Some t) self))
      with (rotate_clouds (set_transform None self)).
    apply bind_agree. intros [raw0 raw1] w1.
    apply bind_agree. intros [[msvs a0] a1] w2.
    apply bind_agree. intros [[trans xyz0] xyz1] w3.
    apply build_sample_feats.
  - intros w' s H.
    apply getitem_inv in H
      as (raw0 & raw1 & w1 & msvs & a0 & a1 & w2 & trans & xyz0 & xyz1 & w3
          & Hload & Hscale & Hrot & Hbuild).
    apply build_sample_inv in Hbuild
      as (xyz0_ & sel0 & w4 & xyz1_ & sel1 & w5 & Hs0 & Hs1 & _ & _ & Hf0 & Hf1 & _).
    exists raw0, raw1, w1, msvs, a0, a1, w2, trans, xyz0, xyz1, w3,
           xyz0_, sel0, w4, xyz1_, sel1, w5.
    repeat (split; [assumption |]). assumption.
Qed.

End Getitem.

(** Item 0 of the demo dataset: its transform is [T1 @ inv(T0)]. *)
Lemma getitem_relative_transform_witness :
  getitem Demo.dataset 0 Demo.world_built = (Demo.world_item, Ok Demo.item) /\
  exists T0 T1 T0_inv : mat4 Z,
    Ref.inv4 T0 = Some T0_inv /\ s_trans Demo.item = Ref.matmul4 T1 T0_inv.
Proof.
  split; [exact getitem_demo |].
  destruct (getitem_relative_transform Demo.dataset 0 Demo.world_built
              Demo.world_item Demo.item getitem_demo)
    as (raw0 & raw1 & w1 & msvs & a0 & a1 & w2 & _ & _ & Hrot).
  change (self_random_rotation Demo.dataset) with true in Hrot. cbv iota in Hrot.
  destruct Hrot as (T0 & g1 & T1 & g2 & T0_inv & sel0 & sel1 & _ & _ & Hinv & Htrans & _).
  exists T0, T1, T0_inv. split; [exact Hinv | exact Htrans].
Defined.

(** With the jitter of the demo the features of item 0 are what they are
    without it. *)
Lemma getitem_features_witness :
  map_result feats_of
    (snd (getitem (set_transform (Some Demo.jitter) Demo.dataset) 0 Demo.world_built))
  = Ok (feats_of Demo.item).
Proof.
  rewrite (proj1 (getitem_features Demo.dataset 0 Demo.world_built) Demo.jitter).
  change (set_transform None Demo.dataset) with Demo.dataset.
  rewrite getitem_demo. reflexivity.
Defined.

(** ** Construction *)

Section Init.
Context {L : Libs}.

(** C9.  Constructing the dataset with a phase other than "train" raises:
    the constructor returns no dataset, it has opened no file and changed
    neither the disk nor the store of lists; and the exception is
    [NotImplementedError] whenever a configuration was passed (with
    [config=None], the default, the read of [config.data] has raised before
    the phase is looked at). *)
Theorem init_unsupported_phase (phase : string) (transform : option Transform)
    (random_rotation random_scale manual_seed : bool) (config : option Config)
    (w : World) :
  phase <> "train"%string ->
  exists e w',
    init phase transform random_rotation random_scale manual_seed config w
      = (w', Raise e) /\
    opened w' = opened w /\ disk w' = disk w /\ heap w' = heap w /\
    (forall c, config = Some c -> e = NotImplementedError).
Proof.
  intros Hphase. unfold init. destruct config as [c|].
  - apply String.eqb_neq in Hphase. rewrite Hphase.
    unfold bind, reset_seed, ret, raise.
    exists NotImplementedError. destruct manual_seed; eexists; repeat split.
  - exists AttributeError, w. unfold raise. repeat split. discriminate.
Qed.

End Init.

(** The phases "val" and "test" on the demo configuration. *)
Lemma init_unsupported_phase_witness :
  "test"%string <> "train"%string /\
  snd (init "val" None true true false (Some Demo.config) Demo.world)
    = Raise NotImplementedError /\
  exists w',
    init "test" None true true false (Some Demo.config) Demo.world
      = (w', Raise NotImplementedError) /\
    opened w' = [].
Proof.
  assert (Hne : "test"%string <> "train"%string) by discriminate.
  split; [exact Hne |]. split; [by_vm |].
  destruct (init_unsupported_phase "test" None true true false
              (Some Demo.config) Demo.world Hne)
    as (e & w' & Hrun & Hopened & _ & _ & He).
  exists w'. rewrite <- (He Demo.config eq_refl). split; [exact Hrun | exact Hopened].
Defined.

